(** * AlphaBot chat backend: a shallow embedding of [app/services/chat_service.py]

    The module [chat_service] normalises provider payloads, dispatches to the
    language-model provider, assembles the conversation context, persists
    messages and manages chat rooms.  This file embeds the parts of it that the
    specification talks about and proves (or refutes) the specification's
    claims against the embedding. *)

From Stdlib Require Import String Ascii List ZArith Bool Lia Sorted.
Import ListNotations.
Open Scope string_scope.
Set Warnings "-register-all".

(* ------------------------------------------------------------------------- *)
(** ** Python runtime: values, a heap for shared objects, exceptions *)

(** Python values that reach the normaliser.  A Python [list] or [tuple] is
    [PList]; a [dict] is [PDict] (an association list, first key wins, as
    keys are unique); any other object is [PObj], with its attributes and
    the text that [str(obj)] renders for it.  [PRef l] is a reference to the
    shared object stored at address [l] of the heap: it is what lets a list
    contain itself. *)
Inductive pyval : Type :=
| PNone
| PInt (z : Z)
| PStr (s : string)
| PList (xs : list pyval)
| PDict (kv : list (string * pyval))
| PObj (attrs : list (string * pyval)) (rendering : string)
| PRef (l : nat).

(** The heap of shared (mutable) objects. *)
Definition heap := list pyval.

Definition deref (h : heap) (v : pyval) : pyval :=
  match v with
  | PRef l => nth l h PNone
  | _ => v
  end.

(** Exceptions raised by the code.  [HTTPError code detail] is FastAPI's
    [HTTPException]. *)
Inductive exn : Type :=
| HTTPError (code : Z) (detail : string)
| TypeError
| ValueError (msg : string)
| AttributeError
| RecursionError
| IntegrityError
| ProviderError (msg : string).

Inductive result (A : Type) : Type :=
| Ok (a : A)
| Raise (e : exn).
Arguments Ok {A} a.
Arguments Raise {A} e.

Definition bind {A B : Type} (m : result A) (k : A -> result B) : result B :=
  match m with
  | Ok a => k a
  | Raise e => Raise e
  end.

Notation "x <- m ;; k" := (bind m (fun x => k))
  (at level 61, m at next level, right associativity).

(** Python's recursion limit (the default of [sys.getrecursionlimit()]):
    the depth of nested calls after which [RecursionError] is raised. *)
Definition recursion_limit : nat := 1000.

(* ------------------------------------------------------------------------- *)
(** ** String helpers: [str.strip], [str.join], [str(int)] *)

(** The characters [str.isspace] accepts in the ASCII range (Python's [\s]
    and [str.strip] use the same set). *)
Definition is_space (c : ascii) : bool :=
  let n := nat_of_ascii c in
  ((9 <=? n) && (n <=? 13))%nat || ((28 <=? n) && (n <=? 32))%nat.

Fixpoint drop_spaces (cs : list ascii) : list ascii :=
  match cs with
  | [] => []
  | c :: cs' => if is_space c then drop_spaces cs' else cs
  end.

(** [s.strip()] *)
Definition strip (s : string) : string :=
  string_of_list_ascii
    (rev (drop_spaces (rev (drop_spaces (list_ascii_of_string s))))).

(** [sep.join(parts)] *)
Fixpoint join (sep : string) (parts : list string) : string :=
  match parts with
  | [] => ""
  | [p] => p
  | p :: ps => p ++ sep ++ join sep ps
  end.

Definition newline : string := String (ascii_of_nat 10) EmptyString.

Fixpoint digits_of (fuel : nat) (n : Z) (acc : string) : string :=
  match fuel with
  | O => acc
  | S f =>
      let acc' := String (ascii_of_nat (48 + Z.to_nat (n mod 10))) acc in
      if (n <? 10)%Z then acc' else digits_of f (n / 10)%Z acc'
  end.

(** [str(z)] for a Python [int]. *)
Definition z_to_string (z : Z) : string :=
  let d := digits_of (S (Z.to_nat (Z.log2_up (Z.abs z + 1)))) (Z.abs z) "" in
  if (z <? 0)%Z then "-" ++ d else d.

Fixpoint assoc (k : string) (kv : list (string * pyval)) : option pyval :=
  match kv with
  | [] => None
  | (k', v) :: kv' => if String.eqb k k' then Some v else assoc k kv'
  end.

(** [repr] of a value, used by [str(d)] on a [dict].  A reference is
    followed at most [fuel] times (Python prints a cycle as [...]). *)
Fixpoint py_repr (fuel : nat) (h : heap) (v : pyval) {struct fuel} : string :=
  let fix go (v : pyval) : string :=
    match v with
    | PNone => "None"
    | PInt z => z_to_string z
    | PStr s => "'" ++ s ++ "'"
    | PList xs => "[" ++ join ", " (map go xs) ++ "]"
    | PDict kv =>
        "{" ++ join ", " (map (fun kx => "'" ++ fst kx ++ "': " ++ go (snd kx)) kv)
        ++ "}"
    | PObj _ r => r
    | PRef l =>
        match fuel with
        | O => "..."
        | S f => py_repr f h (nth l h PNone)
        end
    end in
  go v.

(** [str(value)] *)
Definition py_str (h : heap) (v : pyval) : string :=
  match deref h v with
  | PStr s => s
  | v' => py_repr (length h) h v'
  end.

(** Python truthiness. *)
Definition truthy (h : heap) (v : pyval) : bool :=
  match deref h v with
  | PNone => false
  | PInt z => negb (Z.eqb z 0)
  | PStr s => negb (String.eqb s "")
  | PList xs => negb (Nat.eqb (length xs) 0)
  | PDict kv => negb (Nat.eqb (length kv) 0)
  | _ => true
  end.

(** [a or b] *)
Definition py_or (h : heap) (a b : pyval) : pyval := if truthy h a then a else b.

Definition is_none (h : heap) (v : pyval) : bool :=
  match deref h v with PNone => true | _ => false end.

(** Truthiness of an [Optional[str]]. *)
Definition opt_truthy (o : option string) : bool :=
  match o with
  | Some s => negb (String.eqb s "")
  | None => false
  end.

(* ------------------------------------------------------------------------- *)
(** ** [_get_from_obj] and [_coerce_text_value] *)

(** [_get_from_obj(obj, key, default)]: [dict.get] on a dict, [getattr]
    otherwise (strings, numbers and lists have none of the looked-up
    attributes). *)
Definition get_from_obj (h : heap) (obj : pyval) (key : string)
    (default : pyval) : pyval :=
  match deref h obj with
  | PNone => default
  | PDict kv => match assoc key kv with Some v => v | None => default end
  | PObj attrs _ => match assoc key attrs with Some v => v | None => default end
  | _ => default
  end.

Definition nested_keys : list string := ["value"; "text"; "content"].

(** [[f(x) for x in xs]], left to right: the first exception propagates. *)
Fixpoint map_result {A B : Type} (f : A -> result B) (xs : list A) : result (list B) :=
  match xs with
  | [] => Ok []
  | x :: xs' =>
      r <- f x ;;
      rs <- map_result f xs' ;;
      Ok (r :: rs)
  end.

(** [[part for part in parts if part]] *)
Definition nonempty_parts (rs : list (option string)) : list string :=
  flat_map (fun r => match r with
                     | Some s => if String.eqb s "" then [] else [s]
                     | None => []
                     end) rs.

(** The loop [for key in nested_keys: ...] of [_coerce_text_value], with
    [rec] the recursive call. *)
Fixpoint try_keys (rec : pyval -> result (option string)) (h : heap)
    (value : pyval) (keys : list string) : result (option string) :=
  match keys with
  | [] => Ok None
  | key :: keys' =>
      let nested := get_from_obj h value key PNone in
      if is_none h nested then try_keys rec h value keys'
      else
        resolved <- rec nested ;;
        if opt_truthy resolved then Ok resolved else try_keys rec h value keys'
  end.

(** [_coerce_text_value(value)].  [fuel] is the remaining Python call
    depth: a call made with no depth left raises [RecursionError]. *)
Fixpoint coerce_text_value (fuel : nat) (h : heap) (value : pyval)
    : result (option string) :=
  match fuel with
  | O => Raise RecursionError
  | S f =>
      match deref h value with
      | PNone => Ok None
      | PStr s => Ok (Some s)
      | PInt z => Ok (Some (z_to_string z))
      | PList xs =>
          rs <- map_result (coerce_text_value f h) xs ;;
          let parts := nonempty_parts rs in
          Ok (match parts with [] => None | _ => Some (join newline parts) end)
      | _ =>
          found <- try_keys (coerce_text_value f h) h value nested_keys ;;
          match found with
          | Some r => Ok (Some r)
          | None =>
              let text_repr := strip (py_str h value) in
              Ok (if String.eqb text_repr "" then None else Some text_repr)
          end
      end
  end.

(** A top-level call, made with the whole recursion budget. *)
Definition coerce_text (h : heap) (v : pyval) : result (option string) :=
  coerce_text_value recursion_limit h v.

(* ------------------------------------------------------------------------- *)
(** ** Provider payloads as the OpenAI SDK delivers them *)

(** A content part of a Responses API output item ([ResponseOutputText]
    and its siblings): its [type] and its [text]. *)
Record sdk_part : Type := mk_part {
  part_type : string;
  part_text : string
}.

(** An output item of a Responses API response: its [type] and [content]. *)
Record sdk_item : Type := mk_item {
  item_type : string;
  item_content : list sdk_part
}.

(** A Responses API [Response]: [output], [status] and
    [incomplete_details] ([None], or details holding an optional reason). *)
Record sdk_response : Type := mk_response {
  resp_output : list sdk_item;
  resp_status : string;
  resp_incomplete : option (option string)
}.

(** A Chat Completions [Choice]: [message.content] and [finish_reason]. *)
Record sdk_choice : Type := mk_choice {
  choice_content : option string;
  choice_finish : string
}.

(** A response object as the code holds it: the object itself and, when it
    has [model_dump], the dict that [model_dump()] returns. *)
Record resp_handle : Type := mk_handle {
  h_obj : pyval;
  h_dump : option pyval
}.

Definition opt_str (o : option string) : pyval :=
  match o with Some s => PStr s | None => PNone end.

Definition part_dump (p : sdk_part) : pyval :=
  PDict [("type", PStr (part_type p)); ("text", PStr (part_text p));
         ("annotations", PList [])].

Definition item_dump (i : sdk_item) : pyval :=
  PDict [("type", PStr (item_type i));
         ("content", PList (map part_dump (item_content i)))].

Definition incomplete_dump (o : option (option string)) : pyval :=
  match o with
  | None => PNone
  | Some reason => PDict [("reason", opt_str reason)]
  end.

(** The SDK's [Response.output_text] property: the texts of the
    [output_text] parts of the [message] items, concatenated. *)
Definition sdk_output_text (r : sdk_response) : string :=
  String.concat ""
    (flat_map (fun i =>
       if String.eqb (item_type i) "message" then
         flat_map (fun p => if String.eqb (part_type p) "output_text"
                            then [part_text p] else [])
                  (item_content i)
       else []) (resp_output r)).

Definition part_obj (p : sdk_part) : pyval :=
  PObj [("type", PStr (part_type p)); ("text", PStr (part_text p));
        ("annotations", PList [])] "ResponseOutputText(...)".

Definition item_obj (i : sdk_item) : pyval :=
  PObj [("type", PStr (item_type i));
        ("content", PList (map part_obj (item_content i)))] "ResponseOutputItem(...)".

Definition incomplete_obj (o : option (option string)) : pyval :=
  match o with
  | None => PNone
  | Some reason => PObj [("reason", opt_str reason)] "IncompleteDetails(...)"
  end.

(** The SDK object returned by [client.responses.create]; its [model_dump()]
    has every field but the [output_text] property. *)
Definition response_handle (r : sdk_response) : resp_handle :=
  mk_handle
    (PObj [("output", PList (map item_obj (resp_output r)));
           ("status", PStr (resp_status r));
           ("incomplete_details", incomplete_obj (resp_incomplete r));
           ("output_text", PStr (sdk_output_text r))] "Response(...)")
    (Some (PDict [("output", PList (map item_dump (resp_output r)));
                  ("status", PStr (resp_status r));
                  ("incomplete_details", incomplete_dump (resp_incomplete r))])).

(** A [Choice] object: [message] (with [role] and [content]),
    [finish_reason] and [index]; none of them has a [delta]. *)
Definition choice_obj (c : sdk_choice) : pyval :=
  PObj [("message", PObj [("role", PStr "assistant");
                          ("content", opt_str (choice_content c))]
                         "ChatCompletionMessage(...)");
        ("finish_reason", PStr (choice_finish c));
        ("index", PInt 0)] "Choice(...)".

(* ------------------------------------------------------------------------- *)
(** ** Response normalisation ([_extract_text_from_*]) *)

(** [x in {...}] on a set of strings: hashing an unhashable value (a list
    or a dict) raises [TypeError]. *)
Definition py_in_strs (h : heap) (v : pyval) (set : list string) : result bool :=
  match deref h v with
  | PList _ | PDict _ => Raise TypeError
  | PStr s => Ok (existsb (String.eqb s) set)
  | _ => Ok false
  end.

(** [xs = v or []] followed by [if xs and not isinstance(xs, list): xs = [xs]]. *)
Definition listify (h : heap) (v : pyval) : list pyval :=
  match deref h v with
  | PList xs => xs
  | _ => if truthy h v then [v] else []
  end.

Definition OPENAI_EMPTY_DETAIL : string := "OpenAI returned empty response".

Definition empty_response_error : exn := HTTPError 502 OPENAI_EMPTY_DETAIL.

(** The inner loop of [_extract_text_from_responses] over the content
    parts of one output item. *)
Fixpoint scan_contents (h : heap) (cs : list pyval) : result (option string) :=
  match cs with
  | [] => Ok None
  | content :: cs' =>
      is_text <- py_in_strs h (get_from_obj h content "type" PNone)
                            ["text"; "output_text"] ;;
      if is_text then
        t1 <- coerce_text h (get_from_obj h content "text" PNone) ;;
        if opt_truthy t1 then Ok t1 else
        t2 <- coerce_text h (get_from_obj h content "content" PNone) ;;
        if opt_truthy t2 then Ok t2 else scan_contents h cs'
      else scan_contents h cs'
  end.

(** The outer loop of [_extract_text_from_responses] over the outputs. *)
Fixpoint scan_outputs (h : heap) (os : list pyval) : result (option string) :=
  match os with
  | [] => Ok None
  | output :: os' =>
      is_msg <- py_in_strs h (get_from_obj h output "type" PNone)
                           ["message"; "output_text"] ;;
      if negb is_msg then scan_outputs h os' else
      found <- scan_contents h
                 (listify h (py_or h (get_from_obj h output "content" PNone)
                                     (PList []))) ;;
      match found with
      | Some t => Ok (Some t)
      | None => scan_outputs h os'
      end
  end.

(** [_extract_text_from_responses(resp)] *)
Definition extract_text_from_responses (h : heap) (resp : resp_handle)
    : result string :=
  let resp_data := match h_dump resp with Some d => d | None => h_obj resp end in
  let outputs :=
    listify h (py_or h (py_or h (get_from_obj h resp_data "output" PNone)
                                (get_from_obj h resp_data "outputs" PNone))
                       (PList [])) in
  found <- scan_outputs h outputs ;;
  match found with
  | Some t => Ok t
  | None =>
      fallback <- coerce_text h (py_or h (get_from_obj h resp_data "output_text" PNone)
                                         (get_from_obj h (h_obj resp) "output_text" PNone)) ;;
      if opt_truthy fallback then
        match fallback with Some t => Ok t | None => Raise empty_response_error end
      else Raise empty_response_error
  end.

(** [_extract_text_from_chat_choice(choice)] *)
Definition extract_text_from_chat_choice (h : heap) (choice : pyval)
    : result (option string) :=
  if is_none h choice then Ok None else
  let message := py_or h (get_from_obj h choice "message" PNone) choice in
  t <- coerce_text h (get_from_obj h message "content" PNone) ;;
  if opt_truthy t then Ok t else
  let delta := py_or h (get_from_obj h message "delta" PNone)
                       (get_from_obj h choice "delta" PNone) in
  t' <- coerce_text h delta ;;
  if opt_truthy t' then Ok t' else Ok None.

(** [_is_empty_openai_http_error(exc)] *)
Definition is_empty_openai_http_error (e : exn) : bool :=
  match e with
  | HTTPError code detail =>
      Z.eqb code 502 &&
      match String.index 0 OPENAI_EMPTY_DETAIL detail with
      | Some _ => true
      | None => false
      end
  | _ => false
  end.

Definition ASSISTANT_FALLBACK_MESSAGE : string :=
  "죄송합니다. 지금은 답변을 생성할 수 없어요. 잠시 후 다시 시도해주세요.".

(** [_get_incomplete_reason(resp)] *)
Definition get_incomplete_reason (h : heap) (resp : pyval) : option string :=
  let incomplete := get_from_obj h resp "incomplete_details" PNone in
  if negb (truthy h incomplete) then None else
  let reason := get_from_obj h incomplete "reason" PNone in
  if truthy h reason then Some (py_str h reason) else None.

(* ------------------------------------------------------------------------- *)
(** ** Protocol selection and request shapes *)

Definition lower_ascii (c : ascii) : ascii :=
  let n := nat_of_ascii c in
  if ((65 <=? n) && (n <=? 90))%nat then ascii_of_nat (n + 32) else c.

(** [s.lower()] on ASCII text. *)
Definition lower (s : string) : string :=
  string_of_list_ascii (map lower_ascii (list_ascii_of_string s)).

Definition RESPONSES_ONLY_PREFIXES : list string :=
  ["gpt-4.1"; "gpt-5-mini"; "o4"; "o5"; "o1"].

(** [_should_use_responses_api(model)] *)
Definition should_use_responses_api (model : string) : bool :=
  existsb (fun p => String.prefix p (lower model)) RESPONSES_ONLY_PREFIXES.

(** A chat-style message [{"role": ..., "content": ...}]. *)
Record chat_msg : Type := mk_msg { msg_role_s : string; msg_text : string }.

(** A Responses API input entry: role, content-block type and text. *)
Record resp_input : Type := mk_input {
  in_role : string;
  in_type : string;
  in_text : string
}.

(** [_format_messages_for_responses(messages)] *)
Definition format_messages_for_responses (messages : list chat_msg)
    : list resp_input :=
  map (fun m => mk_input (msg_role_s m)
                         (if String.eqb (msg_role_s m) "assistant"
                          then "output_text" else "input_text")
                         (msg_text m)) messages.

(** The calls the dispatcher makes to the provider, in order. *)
Inductive request : Type :=
| ReqResponses (model : string) (max_output_tokens : Z)
| ReqChat (model : string) (max_tokens : Z).

(** [str(exc)] of the exceptions caught by the dispatcher's last handler. *)
Definition exn_text (e : exn) : string :=
  match e with
  | HTTPError _ d => d
  | TypeError => "unhashable type"
  | ValueError m => m
  | AttributeError => "attribute error"
  | RecursionError => "maximum recursion depth exceeded"
  | IntegrityError => "integrity error"
  | ProviderError m => m
  end.

(* ------------------------------------------------------------------------- *)
(** ** The provider dispatcher [_call_openai_chat] *)

Section Dispatcher.
(** [OPENAI_RESPONSES_MIN_OUTPUT_TOKENS] and
    [OPENAI_RESPONSES_MAX_OUTPUT_TOKENS], read from the environment
    (1024 and 4096 by default). *)
Variables RESPONSES_MIN_OUTPUT_TOKENS RESPONSES_MAX_OUTPUT_TOKENS : Z.
(** [OpenAI is not None], and whether [OpenAI()] succeeds. *)
Variables sdk_installed client_init_ok : bool.
(** Python floats (the sampling temperature) are passed through untouched. *)
Variable float : Type.
(** The provider.  [responses_create n model input cap] is the outcome of
    the [n]-th call (from 0) of [client.responses.create] in one dispatch;
    a [Raise] is an exception of the SDK (network, transport). *)
Variable responses_create : nat -> string -> list resp_input -> Z -> result sdk_response.
(** [client.chat.completions.create], returning [resp.choices]. *)
Variable chat_create : string -> list chat_msg -> float -> Z -> result (list sdk_choice).

(** [min(MAX, max(int(cap * 1.5), cap + 256))]; [int(cap * 1.5)] truncates
    towards zero and is exact on token counts. *)
Definition retry_tokens (cap : Z) : Z :=
  Z.min RESPONSES_MAX_OUTPUT_TOKENS (Z.max (Z.quot (cap * 3) 2) (cap + 256)).

(** The [try: text = _extract_text_from_responses(resp) ...] block. *)
Definition finish_responses (resp : sdk_response) : result string :=
  match extract_text_from_responses [] (response_handle resp) with
  | Ok text => if String.eqb text "" then Ok ASSISTANT_FALLBACK_MESSAGE else Ok text
  | Raise e =>
      if is_empty_openai_http_error e then Ok ASSISTANT_FALLBACK_MESSAGE
      else Raise e
  end.

(** The structured-protocol branch, with the requests it issues.  (The
    debug log lines are left out: on SDK objects they only print.) *)
Definition call_responses (messages : list chat_msg) (model : string)
    (max_tokens : Z) : result string * list request :=
  let responses_input := format_messages_for_responses messages in
  let cap := Z.min (Z.max max_tokens RESPONSES_MIN_OUTPUT_TOKENS)
                   RESPONSES_MAX_OUTPUT_TOKENS in
  match responses_create 0 model responses_input cap with
  | Raise e => (Raise e, [ReqResponses model cap])
  | Ok resp =>
      let incomplete_reason :=
        get_incomplete_reason [] (h_obj (response_handle resp)) in
      if match incomplete_reason with
         | Some r => String.eqb r "max_output_tokens"
         | None => false
         end && (cap <? RESPONSES_MAX_OUTPUT_TOKENS)%Z then
        let retry := retry_tokens cap in
        match responses_create 1 model responses_input retry with
        | Raise e => (Raise e, [ReqResponses model cap; ReqResponses model retry])
        | Ok resp' => (finish_responses resp',
                       [ReqResponses model cap; ReqResponses model retry])
        end
      else (finish_responses resp, [ReqResponses model cap])
  end.

(** The legacy-protocol branch. *)
Definition call_chat (messages : list chat_msg) (model : string)
    (temperature : float) (max_tokens : Z) : result string * list request :=
  match chat_create model messages temperature max_tokens with
  | Raise e => (Raise e, [ReqChat model max_tokens])
  | Ok choices =>
      let choice := match choices with c :: _ => choice_obj c | [] => PNone end in
      ((content <- extract_text_from_chat_choice [] choice ;;
        match content with
        | Some t => if String.eqb t "" then Ok ASSISTANT_FALLBACK_MESSAGE else Ok t
        | None => Ok ASSISTANT_FALLBACK_MESSAGE
        end), [ReqChat model max_tokens])
  end.

(** The [except HTTPException] and [except Exception] clauses. *)
Definition handle_dispatch_error (r : result string) : result string :=
  match r with
  | Ok t => Ok t
  | Raise e =>
      match e with
      | HTTPError _ _ =>
          if is_empty_openai_http_error e then Ok ASSISTANT_FALLBACK_MESSAGE
          else Raise e
      | _ => Raise (HTTPError 502 ("OpenAI chat completion failed: " ++ exn_text e))
      end
  end.

(** [_call_openai_chat(messages, model=..., temperature=..., max_tokens=...)]:
    the reply text (or the exception raised) and the provider calls made. *)
Definition call_openai_chat (messages : list chat_msg) (model : string)
    (temperature : float) (max_tokens : Z) : result string * list request :=
  if negb sdk_installed then
    (Raise (HTTPError 500 "OpenAI SDK is not installed on the server."), [])
  else if negb client_init_ok then
    (Raise (HTTPError 500 "Failed to initialize OpenAI client"), [])
  else
    let '(r, trace) :=
      if should_use_responses_api model then call_responses messages model max_tokens
      else call_chat messages model temperature max_tokens in
    (handle_dispatch_error r, trace).
End Dispatcher.

(* ------------------------------------------------------------------------- *)
(** ** Persistence: rooms, messages and the session *)

(** [RoleEnum] *)
Inductive role : Type := RoleUser | RoleAssistant.

Definition role_value (r : role) : string :=
  match r with RoleUser => "user" | RoleAssistant => "assistant" end.

(** [TrashEnum]: [in_] is "in the trash can", [out] is an active room. *)
Inductive trash : Type := TrashIn | TrashOut.

Definition trash_eqb (a b : trash) : bool :=
  match a, b with
  | TrashIn, TrashIn | TrashOut, TrashOut => true
  | _, _ => false
  end.

(** A [Message] row. *)
Record message : Type := mk_message {
  messages_id : nat;
  m_chat_id : nat;
  m_user_id : nat;
  m_role : role;
  m_content : string;
  m_created_at : nat
}.

(** A [Chat] row. *)
Record chat : Type := mk_chat {
  chat_id : nat;
  c_user_id : nat;
  title : option string;
  stock_code : option string;
  trash_can : trash;
  lastchat_at : nat
}.

(** The database as seen by one request's session: the two tables in
    persistence order, the clock read by [func.now()], and the next values
    of the two autoincrement keys. *)
Record db : Type := mk_db {
  db_chats : list chat;
  db_messages : list message;
  db_clock : nat;
  db_next_chat : nat;
  db_next_msg : nat
}.

(** The session monad: a computation reads and writes the database and
    may raise; what was committed before an exception stays committed. *)
Definition M (A : Type) : Type := db -> result A * db.

Definition ret {A : Type} (a : A) : M A := fun s => (Ok a, s).
Definition raise {A : Type} (e : exn) : M A := fun s => (Raise e, s).
Definition mbind {A B : Type} (m : M A) (k : A -> M B) : M B :=
  fun s => match m s with
           | (Ok a, s') => k a s'
           | (Raise e, s') => (Raise e, s')
           end.
Definition get_db : M db := fun s => (Ok s, s).
Definition put_db (s : db) : M unit := fun _ => (Ok tt, s).
Definition lift {A : Type} (r : result A) : M A := fun s => (r, s).

Notation "'let*' x ':=' m 'in' k" := (mbind m (fun x => k))
  (at level 200, x name, m at level 100, k at level 200).

Definition opt_eqb (a : option string) (b : option string) : bool :=
  match a, b with
  | Some x, Some y => String.eqb x y
  | None, None => true
  | _, _ => false
  end.

Fixpoint find_first {A : Type} (p : A -> bool) (xs : list A) : option A :=
  match xs with
  | [] => None
  | x :: xs' => if p x then Some x else find_first p xs'
  end.

Definition replace_chat (c : chat) (cs : list chat) : list chat :=
  map (fun c' => if Nat.eqb (chat_id c') (chat_id c) then c else c') cs.

(** Modelled from the spec: the persistence layer's uniqueness constraint
    on (user, stock code) among active rooms, defined with the schema in
    [app.models], which is not part of the sources.  [conflicts cs c] holds
    when writing row [c] would break it. *)
Definition conflicts (cs : list chat) (c : chat) : bool :=
  existsb (fun c' => negb (Nat.eqb (chat_id c') (chat_id c))
                     && Nat.eqb (c_user_id c') (c_user_id c)
                     && match stock_code c, stock_code c' with
                        | Some a, Some b => String.eqb a b
                        | _, _ => false
                        end
                     && trash_eqb (trash_can c') TrashOut
                     && trash_eqb (trash_can c) TrashOut) cs.

(** [db.add(new_chat); db.commit()]: the row gets the next key.  A
    violated constraint raises [IntegrityError] and nothing is written. *)
Definition commit_new_chat (mk : nat -> nat -> chat) : M chat :=
  let* s := get_db in
  let c := mk (db_next_chat s) (db_clock s) in
  if conflicts (db_chats s) c then raise IntegrityError else
  let* _ := put_db (mk_db (db_chats s ++ [c]) (db_messages s) (S (db_clock s))
                          (S (db_next_chat s)) (db_next_msg s)) in
  ret c.

(** [db.commit()] after the attributes of a loaded row were set. *)
Definition commit_chat (c : chat) : M chat :=
  let* s := get_db in
  if conflicts (db_chats s) c then raise IntegrityError else
  let* _ := put_db (mk_db (replace_chat c (db_chats s)) (db_messages s)
                          (S (db_clock s)) (db_next_chat s) (db_next_msg s)) in
  ret c.

(** [db.add(msg); chat.lastchat_at = func.now(); db.commit()]. *)
Definition commit_message (chat_row : chat) (mk : nat -> nat -> message) : M message :=
  let* s := get_db in
  let m := mk (db_next_msg s) (db_clock s) in
  let chat_row' := mk_chat (chat_id chat_row) (c_user_id chat_row) (title chat_row)
                           (stock_code chat_row) (trash_can chat_row) (db_clock s) in
  let* _ := put_db (mk_db (replace_chat chat_row' (db_chats s))
                          (db_messages s ++ [m]) (S (db_clock s))
                          (db_next_chat s) (S (db_next_msg s))) in
  ret m.

(** [_ensure_room_ownership(db, room_id, user_id)] *)
Definition ensure_room_ownership (room_id user_id : nat) : M chat :=
  let* s := get_db in
  match find_first (fun c => Nat.eqb (chat_id c) room_id
                             && Nat.eqb (c_user_id c) user_id) (db_chats s) with
  | Some c => ret c
  | None => raise (HTTPError 404 "Chat room not found or permission denied")
  end.

(** Stable insertion of a message by ascending [created_at]. *)
Fixpoint insert_by_created (m : message) (ms : list message) : list message :=
  match ms with
  | [] => [m]
  | m' :: ms' =>
      if (m_created_at m' <=? m_created_at m)%nat then m' :: insert_by_created m ms'
      else m :: ms
  end.

(** [ORDER BY created_at ASC] *)
Definition order_by_created (ms : list message) : list message :=
  fold_left (fun acc m => insert_by_created m acc) ms [].

(** [_load_chat_history(db, room_id, limit=30)]:
    [filter(chat_id == room_id).order_by(created_at.asc()).limit(limit)]. *)
Definition load_chat_history (room_id : nat) (limit : nat) : M (list message) :=
  let* s := get_db in
  ret (firstn limit (order_by_created
                       (filter (fun m => Nat.eqb (m_chat_id m) room_id)
                               (db_messages s)))).

(** [_convert_history_to_openai_messages(history, system_prompt)] *)
Definition convert_history_to_openai_messages (history : list message)
    (system_prompt : option string) : list chat_msg :=
  (if opt_truthy system_prompt then
     match system_prompt with Some p => [mk_msg "system" p] | None => [] end
   else [])
  ++ map (fun m => mk_msg (role_value (m_role m)) (m_content m)) history.

(** [_extract_latest_user_text(history)] *)
Definition extract_latest_user_text (history : list message) : option string :=
  match find_first (fun m => String.eqb (role_value (m_role m)) "user") (rev history) with
  | Some m => Some (m_content m)
  | None => None
  end.

(* ------------------------------------------------------------------------- *)
(** ** News summary, reply orchestration and the chat-completions route *)

(** A document returned by [rag_service.similarity_search]; [None] stands
    for a missing or empty field (both are falsy for [or]). *)
Record news_doc : Type := mk_doc {
  doc_title : option string;
  doc_published_at : option string;
  doc_content : option string
}.

Definition or_default (o : option string) (d : string) : string :=
  match o with
  | Some s => if String.eqb s "" then d else s
  | None => d
  end.

Fixpoint collapse_spaces (cs : list ascii) (in_run : bool) : list ascii :=
  match cs with
  | [] => []
  | c :: cs' =>
      if is_space c then
        if in_run then collapse_spaces cs' true else " "%char :: collapse_spaces cs' true
      else c :: collapse_spaces cs' false
  end.

(** [re.sub(r"\s+", " ", raw).strip()], truncated to 200 characters with
    an ellipsis. *)
Definition snippet_of (raw : string) : string :=
  let s := strip (string_of_list_ascii (collapse_spaces (list_ascii_of_string raw) false)) in
  if (200 <? String.length s)%nat then substring 0 200 s ++ "..." else s.

Fixpoint summary_lines (idx : nat) (docs : list news_doc) : list string :=
  match docs with
  | [] => []
  | d :: ds =>
      (z_to_string (Z.of_nat idx) ++ ". " ++ or_default (doc_title d) "제목 없음"
       ++ " (" ++ or_default (doc_published_at d) "발행일 미상" ++ "): "
       ++ snippet_of (or_default (doc_content d) ""))
      :: summary_lines (S idx) ds
  end.

Fixpoint footer_lines (idx : nat) (docs : list news_doc) : string :=
  match docs with
  | [] => ""
  | d :: ds =>
      z_to_string (Z.of_nat idx) ++ ". " ++ or_default (doc_title d) "제목 없음"
      ++ " (" ++ or_default (doc_published_at d) "날짜 미상" ++ ")" ++ newline
      ++ footer_lines (S idx) ds
  end.

(** [lst.insert(i, x)] *)
Definition insert_at {A : Type} (i : nat) (x : A) (l : list A) : list A :=
  app (firstn i l) (x :: skipn i l).

(** The values a Python tuple returned by the service may hold. *)
Inductive ret_item : Type :=
| RMsg (m : message)
| RDocs (ds : list news_doc).

(** [ChatCompletionResponse] with the assistant's [referenced_news]. *)
Record completion_response : Type := mk_completion {
  user_message : message;
  assistant_message : message;
  referenced_news : list news_doc
}.

Section Orchestrator.
(** [_ENABLE_RAG_NEWS] (configured and the news database available). *)
Variable rag_enabled : bool.
(** [rag_service.similarity_search(query=..., ...)] inside the news
    session; a [Raise] is any exception of the retrieval path. *)
Variable similarity_search : string -> result (list news_doc).
(** [_RAG_NEWS_SUMMARY_LIMIT] *)
Variable RAG_NEWS_SUMMARY_LIMIT : nat.
(** [_call_openai_chat(messages)] with the module's default model,
    temperature and token cap. *)
Variable call_openai : list chat_msg -> result string.

(** [_build_rag_news_summary(stock_code, latest_user_text=...)] *)
Definition build_rag_news_summary (stock : option string)
    (latest_user_text : option string) : option string * list news_doc :=
  if negb rag_enabled || negb (opt_truthy stock) then (None, []) else
  let stock_s := or_default stock "" in
  let queries := app (if opt_truthy latest_user_text
                      then [or_default latest_user_text ""] else []) [stock_s] in
  let fix run (qs : list string) (docs : list news_doc) : result (list news_doc) :=
    match qs with
    | [] => Ok docs
    | q :: qs' =>
        d <- similarity_search q ;;
        match d with [] => run qs' d | _ => Ok d end
    end in
  match run queries [] with
  | Raise _ => (None, [])
  | Ok [] => (None, [])
  | Ok docs =>
      let top := firstn RAG_NEWS_SUMMARY_LIMIT docs in
      (Some ("[뉴스 요약]" ++ newline ++ stock_s
             ++ " 관련 최신 기사에서 추출한 핵심 내용입니다. 필요한 경우 아래 정보를 참고해 답변하세요."
             ++ newline ++ join newline (summary_lines 1 top)),
       top)
  end.

(** [save_user_message(db, room_id=..., current_user=..., message=...)] *)
Definition save_user_message (room_id user_id : nat) (content : string) : M message :=
  let* c := ensure_room_ownership room_id user_id in
  commit_message c (fun id now => mk_message id room_id user_id RoleUser content now).

(** [generate_and_save_assistant_reply(db, room_id=..., current_user=...,
    system_prompt=...)] *)
Definition generate_and_save_assistant_reply (room_id user_id : nat)
    (system_prompt : option string) : M message :=
  let* c := ensure_room_ownership room_id user_id in
  let* history := load_chat_history room_id 30 in
  let latest_user_text := extract_latest_user_text history in
  let '(rag_summary, news_docs) :=
    build_rag_news_summary (stock_code c) latest_user_text in
  let oai_messages := convert_history_to_openai_messages history system_prompt in
  let oai_messages :=
    match rag_summary with
    | Some summary =>
        if opt_truthy rag_summary then
          insert_at (if opt_truthy system_prompt then 1 else 0)
                    (mk_msg "system" summary) oai_messages
        else oai_messages
    | None => oai_messages
    end in
  let* assistant_text := lift (call_openai oai_messages) in
  let assistant_text :=
    match news_docs with
    | [] => assistant_text
    | _ => assistant_text ++ newline ++ newline ++ "[참고 뉴스]" ++ newline
           ++ footer_lines 1 news_docs
    end in
  commit_message c (fun id now =>
    mk_message id room_id user_id RoleAssistant assistant_text now).

(** [create_message_and_reply(...)]: returns the Python tuple
    [(user_msg, assistant_msg)]. *)
Definition create_message_and_reply (room_id user_id : nat) (content : string)
    (system_prompt : option string) : M (list ret_item) :=
  let* user_msg := save_user_message room_id user_id content in
  let* assistant_msg := generate_and_save_assistant_reply room_id user_id system_prompt in
  ret [RMsg user_msg; RMsg assistant_msg].

(** The route [POST /rooms/{room_id}/chat-completions]
    ([create_message_with_openai]): it unpacks the service's tuple into
    three names; unpacking a tuple of another length raises
    [ValueError]. *)
Definition create_message_with_openai (room_id user_id : nat) (content : string)
    (system_prompt : option string) : M completion_response :=
  let* t := create_message_and_reply room_id user_id content system_prompt in
  match t with
  | [RMsg u; RMsg a; RDocs ds] => ret (mk_completion u a ds)
  | [_; _; _] => raise TypeError
  | _ => raise (ValueError ("not enough values to unpack (expected 3, got "
                            ++ z_to_string (Z.of_nat (length t)) ++ ")"))
  end.
End Orchestrator.

(* ------------------------------------------------------------------------- *)
(** ** Room lifecycle *)

(** [ChatCreate] *)
Record chat_create : Type := mk_chat_create {
  cc_title : option string;
  cc_stock_code : option string
}.

(** [ChatUpdate]; [trash_can] holds the raw value of the request, whose
    valid values are [TrashEnum]'s ["in"] and ["out"]. *)
Record chat_update : Type := mk_chat_update {
  cu_title : option string;
  cu_trash_can : option string
}.

Definition trash_of_value (v : string) : option trash :=
  if String.eqb v "in" then Some TrashIn
  else if String.eqb v "out" then Some TrashOut
  else None.

(** [try: m except IntegrityError: handler] *)
Definition catch_integrity {A : Type} (m : M A) (handler : M A) : M A :=
  fun s => match m s with
           | (Raise IntegrityError, s') => handler s'
           | r => r
           end.

Definition owned_with_stock (user_id : nat) (code : option string) (t : trash)
    (c : chat) : bool :=
  Nat.eqb (c_user_id c) user_id && opt_eqb (stock_code c) code
  && trash_eqb (trash_can c) t.

(** One step of the scan for the largest [chat_id] (the first one wins a tie). *)
Definition latest_step (best : option chat) (c : chat) : option chat :=
  match best with
  | Some b => if (chat_id b <? chat_id c)%nat then Some c else best
  | None => Some c
  end.

(** [ORDER BY chat_id DESC] then [.first()] *)
Definition latest_by_id (cs : list chat) : option chat :=
  fold_left latest_step cs None.

Definition with_title_trash (c : chat) (t : option string) (tr : trash) : chat :=
  mk_chat (chat_id c) (c_user_id c) t (stock_code c) tr (lastchat_at c).

Section Rooms.
(** The column default of [Chat.trash_can] (declared in [app.models],
    which is not part of the sources): used when a row is created without
    an explicit trash state. *)
Variable trash_default : trash.

(** [create_chat_room_for_user(db, current_user=..., chat_in=...)] *)
Definition create_chat_room_for_user (user_id : nat) (chat_in : chat_create) : M chat :=
  let* s := get_db in
  let existing_chat :=
    if opt_truthy (cc_stock_code chat_in) then
      find_first (owned_with_stock user_id (cc_stock_code chat_in) TrashIn) (db_chats s)
    else None in
  match existing_chat with
  | Some c => ret c
  | None =>
      commit_new_chat (fun id now =>
        mk_chat id user_id (cc_title chat_in) (cc_stock_code chat_in) trash_default now)
  end.
End Rooms.

(** [get_chat_room_by_stock_for_user(db, current_user=..., stock_code=...)] *)
Definition get_chat_room_by_stock_for_user (user_id : nat) (code : string) : M chat :=
  let* s := get_db in
  match find_first (owned_with_stock user_id (Some code) TrashIn) (db_chats s) with
  | Some c => ret c
  | None => raise (HTTPError 404 "Chat room for stock not found")
  end.

(** [update_chat_room_for_user(db, room_id=..., current_user=..., chat_in=...)] *)
Definition update_chat_room_for_user (room_id user_id : nat) (chat_in : chat_update)
    : M chat :=
  let* s := get_db in
  match find_first (fun c => Nat.eqb (chat_id c) room_id
                             && Nat.eqb (c_user_id c) user_id) (db_chats s) with
  | None => raise (HTTPError 404 "Chat room not found or permission denied")
  | Some c =>
      let* c1 :=
        match cu_title chat_in with
        | Some t =>
            let normalized_title := strip t in
            if String.eqb normalized_title "" then
              raise (HTTPError 400 "Title must not be empty")
            else ret (with_title_trash c (Some normalized_title) (trash_can c), true)
        | None => ret (c, false)
        end in
      let* c2 :=
        match cu_trash_can chat_in with
        | Some v =>
            match trash_of_value v with
            | Some tr => ret (with_title_trash (fst c1) (title (fst c1)) tr, true)
            | None => raise (HTTPError 400 "Invalid trash_can value")
            end
        | None => ret c1
        end in
      if snd c2 then commit_chat (fst c2) else ret (fst c2)
  end.

(** [get_active_chat_by_stock(db, user_id, stock_code)] *)
Definition get_active_chat_by_stock (user_id : nat) (code : string) : M (option chat) :=
  let* s := get_db in
  ret (find_first (owned_with_stock user_id (Some code) TrashOut) (db_chats s)).

Definition CHAT_TITLE_SUFFIX : string := " 채팅".

(** [upsert_chat_by_stock(db, user=..., stock_code=..., title=...)]:
    the room and the "existed" flag. *)
Definition upsert_chat_by_stock (user_id : nat) (code : string)
    (new_title : option string) : M (chat * bool) :=
  let* existing := get_active_chat_by_stock user_id code in
  match existing with
  | Some c => ret (c, true)
  | None =>
      let* s := get_db in
      match latest_by_id (filter (owned_with_stock user_id (Some code) TrashIn)
                                 (db_chats s)) with
      | Some trashed =>
          let restored_title :=
            if opt_truthy new_title then
              let st := strip (or_default new_title "") in
              if String.eqb st "" then title trashed else Some st
            else title trashed in
          let* c := commit_chat (with_title_trash trashed restored_title TrashOut) in
          ret (c, false)
      | None =>
          let room_title :=
            let st := if opt_truthy new_title then strip (or_default new_title "") else "" in
            if String.eqb st "" then code ++ CHAT_TITLE_SUFFIX else st in
          catch_integrity
            (let* c := commit_new_chat (fun id now =>
                          mk_chat id user_id (Some room_title) (Some code) TrashOut now) in
             ret (c, false))
            (let* again := get_active_chat_by_stock user_id code in
             match again with
             | None => raise IntegrityError
             | Some c => ret (c, true)
             end)
      end
  end.

(* ------------------------------------------------------------------------- *)
(** ** Stock code normalisation *)

Definition upper_ascii (c : ascii) : ascii :=
  let n := nat_of_ascii c in
  if ((97 <=? n) && (n <=? 122))%nat then ascii_of_nat (n - 32) else c.

(** One character of [[A-Z0-9.\-]]. *)
Definition stock_char_ok (c : ascii) : bool :=
  let n := nat_of_ascii c in
  ((65 <=? n) && (n <=? 90))%nat || ((48 <=? n) && (n <=? 57))%nat
  || (n =? 46)%nat || (n =? 45)%nat.

(** [_STOCK_CODE_PATTERN.match(s)] for [^[A-Z0-9.\-]{1,20}$]: [s] has
    no line break (it has no whitespace at all), so [$] is its end. *)
Definition stock_pattern_match (s : string) : bool :=
  let cs := list_ascii_of_string s in
  (1 <=? length cs)%nat && (length cs <=? 20)%nat && forallb stock_char_ok cs.

(** [re.sub(r"\s+", "", raw_code).upper()] on ASCII text. *)
Definition strip_upper (raw : string) : string :=
  string_of_list_ascii
    (map upper_ascii (filter (fun c => negb (is_space c)) (list_ascii_of_string raw))).

(** [normalize_stock_code(raw_code)]; [None] is Python's [None]. *)
Definition normalize_stock_code (raw_code : option string) : result string :=
  match raw_code with
  | None => Raise (ValueError "stock_code is required")
  | Some raw =>
      let normalized := strip_upper raw in
      if String.eqb normalized "" then Raise (ValueError "stock_code is empty")
      else if (20 <? String.length normalized)%nat then
        Raise (ValueError "stock_code must be 20 chars or fewer")
      else if negb (stock_pattern_match normalized) then
        Raise (ValueError "stock_code contains invalid characters")
      else Ok normalized
  end.

(* ------------------------------------------------------------------------- *)
(** ** Listing queries and the by-stock route *)

(** [fetch_chat_messages(db, room_id=..., current_user=..., last_message_id=...)] *)
Definition fetch_chat_messages (room_id user_id : nat) (last_message_id : option nat)
    : M (list message) :=
  let* _ := ensure_room_ownership room_id user_id in
  let* s := get_db in
  let query := filter (fun m => Nat.eqb (m_chat_id m) room_id) (db_messages s) in
  let query :=
    match last_message_id with
    | Some k => filter (fun m => (k <? messages_id m)%nat) query
    | None => query
    end in
  ret (order_by_created query).

(** [list_user_chat_rooms(db, current_user=...)] *)
Definition list_user_chat_rooms (user_id : nat) : M (list chat) :=
  let* s := get_db in
  ret (filter (fun c => Nat.eqb (c_user_id c) user_id) (db_chats s)).



(* ------------------------------------------------------------------------- *)
(** ** Notions used by the statements *)




(** An output item from which no text can be extracted: if it is a
    [message] or [output_text] item, its text parts are empty. *)
Definition item_has_no_text (i : sdk_item) : Prop :=
  In (item_type i) ["message"; "output_text"] ->
  Forall (fun p => In (part_type p) ["text"; "output_text"] -> part_text p = "")
         (item_content i).

Definition responses_no_text (r : sdk_response) : Prop :=
  Forall item_has_no_text (resp_output r).

(** Chat Completions choices with no text: no choice, or a first choice
    whose content is [None] or empty. *)
Definition choices_no_text (cs : list sdk_choice) : Prop :=
  match cs with
  | [] => True
  | c :: _ => choice_content c = None \/ choice_content c = Some ""
  end.

Definition is_lower_ascii (c : ascii) : bool :=
  let n := nat_of_ascii c in ((97 <=? n) && (n <=? 122))%nat.

(** The rooms of a user for a stock code in a given trash state. *)
Definition rooms_of (s : db) (user_id : nat) (code : string) (t : trash) : list chat :=
  filter (owned_with_stock user_id (Some code) t) (db_chats s).

(** The title a restored room gets: the stripped new title when it is
    non-empty, the old one otherwise. *)
Definition restored_title (old : option string) (new_title : option string) : option string :=
  if opt_truthy new_title then
    let st := strip (or_default new_title "") in
    if String.eqb st "" then old else Some st
  else old.

(** The title of a newly created room: the stripped new title, or the
    ["{code} 채팅"] placeholder. *)
Definition new_room_title (code : string) (new_title : option string) : string :=
  let st := if opt_truthy new_title then strip (or_default new_title "") else "" in
  if String.eqb st "" then code ++ CHAT_TITLE_SUFFIX else st.

(** Strictly increasing creation times along a list of messages. *)
Fixpoint created_increasing (ms : list message) : bool :=
  match ms with
  | a :: ((b :: _) as rest) => (m_created_at a <? m_created_at b)%nat && created_increasing rest
  | _ => true
  end.

(** Creation order of messages. *)
Definition created_lt (a b : message) : Prop := (m_created_at a < m_created_at b)%nat.

(** The [n]-th message a user posts in room 1, created at time [n]. *)
Definition numbered_message (n : nat) : message := mk_message n 1 7 RoleUser "m" n.

(** Room 1 holding 31 messages created at times 1 to 31. *)
Definition db31 : db :=
  mk_db [mk_chat 1 7 (Some "t") (Some "AAPL") TrashOut 31]
        (map numbered_message (seq 1 31)) 32 2 32.

(** Sample sessions for the chat-completions route. *)
Definition c1_db0 : db := mk_db [mk_chat 1 7 (Some "t") (Some "AAPL") TrashOut 0] [] 0 2 1.

Definition c1_user_msg : message := mk_message 1 1 7 RoleUser "hi" 0.

Definition c1_assistant_msg : message := mk_message 2 1 7 RoleAssistant "answer" 1.

Definition c1_db1 : db :=
  mk_db [mk_chat 1 7 (Some "t") (Some "AAPL") TrashOut 1]
        [c1_user_msg; c1_assistant_msg] 2 2 3.

(** A user whose only room for a stock code is in the trash can. *)
Definition trashed_room : chat := mk_chat 1 7 (Some "t") (Some "AAPL") TrashIn 0.

Definition dbT : db := mk_db [trashed_room] [] 1 2 1.

(** A user with an active room (1) and an older trashed room (2), both
    for stock code ["X"]: at most one active room per (user, code). *)
Definition db2 : db :=
  mk_db [mk_chat 1 7 (Some "a") (Some "X") TrashOut 0;
         mk_chat 2 7 (Some "b") (Some "X") TrashIn 0] [] 0 3 1.

(** [db2] after room 1 was moved to the trash can. *)
Definition db2_trashed : db :=
  mk_db [mk_chat 1 7 (Some "a") (Some "X") TrashIn 0;
         mk_chat 2 7 (Some "b") (Some "X") TrashIn 0] [] 1 3 1.

(** A user whose only room for ["X"] is room 1, active, and the state
    after it was moved to the trash can. *)
Definition dbU : db := mk_db [mk_chat 1 7 (Some "a") (Some "X") TrashOut 0] [] 0 2 1.

Definition dbU_trashed : db := mk_db [mk_chat 1 7 (Some "a") (Some "X") TrashIn 0] [] 1 2 1.

Definition created_le (a b : message) : Prop := (m_created_at a <= m_created_at b)%nat.

Definition db_empty : db := mk_db [] [] 0 1 1.




Definition provider_down (msgs : list chat_msg) : result string :=
  Raise (HTTPError 502 "OpenAI chat completion failed: timeout").

(* ========================================================================= *)
(** * Properties *)

(** ** General lemmas *)

Lemma find_first_none {A : Type} (p : A -> bool) (xs : list A) :
  find_first p xs = None <-> (forall x, In x xs -> p x = false).
Proof.
  induction xs as [|y ys IH]; simpl; split.
  - intros _ x [].
  - reflexivity.
  - destruct (p y) eqn:Hy; [discriminate|]. intros Hn x [<-|Hx]; auto.
    apply IH; auto.
  - intros Hall. rewrite (Hall y (or_introl eq_refl)). apply IH. intros x Hx. apply Hall. auto.
Qed.

Lemma find_first_some {A : Type} (p : A -> bool) (xs : list A) (x : A) :
  find_first p xs = Some x -> In x xs /\ p x = true.
Proof.
  induction xs as [|y ys IH]; simpl; [discriminate|].
  destruct (p y) eqn:Hy.
  - intros [= <-]. auto.
  - intros H. destruct (IH H). auto.
Qed.



(** ** The text normaliser *)


















(** ** The provider dispatcher *)

Lemma incomplete_reason_sdk (r : sdk_response) :
  get_incomplete_reason [] (h_obj (response_handle r)) =
  match resp_incomplete r with
  | Some (Some s) => if String.eqb s "" then None else Some s
  | _ => None
  end.
Proof.
  destruct r as [out st [[s|]|]];
    unfold get_incomplete_reason, get_from_obj, truthy, py_str, deref; simpl;
    try reflexivity.
  destruct (String.eqb s ""); reflexivity.
Qed.

(** C6: with the structured protocol, when the first response is
    incomplete for [max_output_tokens] and the clamped cap was below the
    configured ceiling, exactly two calls are made: the first with the cap,
    the retry with [min(ceiling, max(int(cap * 1.5), cap + 256))], and no
    other, whatever the retry returns; for any other reason, or a cap at
    the ceiling, the first call is the only one. *)
Theorem responses_retry_exactly_once :
  forall (MINT MAXT : Z) (float : Type) rc cc msgs model (temperature : float) max_tokens,
  should_use_responses_api model = true ->
  let cap := Z.min (Z.max max_tokens MINT) MAXT in
  let trace :=
    snd (call_openai_chat MINT MAXT true true float rc cc msgs model temperature max_tokens) in
  forall resp,
  rc 0%nat model (format_messages_for_responses msgs) cap = Ok resp ->
  (resp_incomplete resp = Some (Some "max_output_tokens") -> (cap < MAXT)%Z ->
     trace = [ReqResponses model cap;
              ReqResponses model (Z.min MAXT (Z.max (Z.quot (cap * 3) 2) (cap + 256)))])
  /\ (resp_incomplete resp <> Some (Some "max_output_tokens") \/ (MAXT <= cap)%Z ->
     trace = [ReqResponses model cap]).
Proof.
  intros MINT MAXT float rc cc msgs model temperature max_tokens Huse cap trace resp Hrc.
  subst trace. unfold call_openai_chat. simpl negb. cbv iota. rewrite Huse.
  unfold call_responses. cbv zeta. fold cap. rewrite Hrc.
  rewrite incomplete_reason_sdk. split.
  - intros Hinc Hlt. rewrite Hinc. simpl String.eqb at 1.
    replace (cap <? MAXT)%Z with true by (symmetry; apply Z.ltb_lt; exact Hlt).
    simpl. destruct (rc 1%nat model (format_messages_for_responses msgs) (retry_tokens MAXT cap));
      reflexivity.
  - intros Hcase.
    assert (Hcond : (match match resp_incomplete resp with
                           | Some (Some s) => if String.eqb s "" then None else Some s
                           | _ => None
                           end with
                     | Some r => String.eqb r "max_output_tokens"
                     | None => false
                     end && (cap <? MAXT)%Z) = false).
    { destruct Hcase as [Hne | Hge].
      - destruct (resp_incomplete resp) as [[s|]|]; try reflexivity.
        destruct (String.eqb s "") eqn:Hs; [reflexivity|].
        destruct (String.eqb s "max_output_tokens") eqn:Hm; [|reflexivity].
        apply String.eqb_eq in Hm. subst s. contradiction.
      - replace (cap <? MAXT)%Z with false by (symmetry; apply Z.ltb_ge; exact Hge).
        apply andb_false_r. }
    rewrite Hcond. reflexivity.
Qed.

Lemma responses_retry_exactly_once_witness :
  snd (call_openai_chat 1024 4096 true true unit
         (fun _ _ _ _ => Ok (mk_response [] "incomplete" (Some (Some "max_output_tokens"))))
         (fun _ _ _ _ => Ok []) [mk_msg "user" "hi"] "gpt-5-mini" tt 512)
  = [ReqResponses "gpt-5-mini" 1024; ReqResponses "gpt-5-mini" 1536].
Proof.
  apply (proj1 (responses_retry_exactly_once 1024 4096 unit
           (fun _ _ _ _ => Ok (mk_response [] "incomplete" (Some (Some "max_output_tokens"))))
           (fun _ _ _ _ => Ok []) [mk_msg "user" "hi"] "gpt-5-mini" tt 512 eq_refl
           (mk_response [] "incomplete" (Some (Some "max_output_tokens"))) eq_refl));
    [reflexivity | vm_compute; reflexivity].
Defined.

Lemma listify_outputs (xs : list pyval) :
  listify [] (py_or [] (py_or [] (PList xs) PNone) (PList [])) = xs.
Proof. destruct xs; reflexivity. Qed.

Lemma listify_contents (xs : list pyval) :
  listify [] (py_or [] (PList xs) (PList [])) = xs.
Proof. destruct xs; reflexivity. Qed.

Lemma in_strs_existsb (s : string) (set : list string) :
  existsb (String.eqb s) set = true -> In s set.
Proof.
  intros H. apply existsb_exists in H. destruct H as [x [Hx Heq]].
  apply String.eqb_eq in Heq. subst. exact Hx.
Qed.

Lemma scan_contents_no_text (ps : list sdk_part) :
  Forall (fun p => In (part_type p) ["text"; "output_text"] -> part_text p = "") ps ->
  scan_contents [] (map part_dump ps) = Ok None.
Proof.
  induction ps as [|p ps IH]; intros Hall; [reflexivity|].
  inversion Hall as [|? ? Hp Hps]; subst.
  cbn [map scan_contents]. remember (map part_dump ps) as rest eqn:Hrest.
  unfold part_dump, get_from_obj, py_in_strs. cbn [deref assoc]. simpl String.eqb.
  cbv iota. cbn [deref bind].
  destruct (existsb (String.eqb (part_type p)) ["text"; "output_text"]) eqn:Ht.
  - rewrite (Hp (in_strs_existsb _ _ Ht)). cbn [bind].
    replace (coerce_text [] (PStr "")) with (Ok (Some "")) by reflexivity.
    replace (coerce_text [] PNone) with (Ok (@None string)) by reflexivity.
    cbn. subst rest. apply IH. exact Hps.
  - cbn [bind]. subst rest. apply IH. exact Hps.
Qed.

Lemma scan_outputs_no_text (items : list sdk_item) :
  Forall item_has_no_text items ->
  scan_outputs [] (map item_dump items) = Ok None.
Proof.
  induction items as [|i items IH]; intros Hall; [reflexivity|].
  inversion Hall as [|? ? Hi His]; subst.
  cbn [map scan_outputs]. remember (map item_dump items) as rest eqn:Hrest.
  unfold item_dump, get_from_obj, py_in_strs. cbn [deref assoc]. simpl String.eqb.
  cbv iota. cbn [deref bind].
  destruct (existsb (String.eqb (item_type i)) ["message"; "output_text"]) eqn:Ht.
  - cbn [negb].
    rewrite listify_contents.
    rewrite (scan_contents_no_text _ (Hi (in_strs_existsb _ _ Ht))).
    cbn [bind]. subst rest. apply IH. exact His.
  - cbn [negb]. subst rest. apply IH. exact His.
Qed.

Lemma concat_empty_parts (l : list string) :
  (forall x, In x l -> x = "") -> String.concat "" l = "".
Proof.
  induction l as [|x l IH]; intros Hl; [reflexivity|].
  rewrite (Hl x (or_introl eq_refl)).
  assert (Hrest : String.concat "" l = "") by (apply IH; intros z Hz; apply Hl; right; exact Hz).
  destruct l as [|y l']; [reflexivity|].
  change (String.concat "" ("" :: y :: l')) with ("" ++ "" ++ String.concat "" (y :: l'))%string.
  rewrite Hrest. reflexivity.
Qed.

Lemma sdk_output_text_no_text (r : sdk_response) :
  responses_no_text r -> sdk_output_text r = "".
Proof.
  intros Hno. unfold sdk_output_text. apply concat_empty_parts.
  intros x Hx. apply in_flat_map in Hx. destruct Hx as [i [Hi Hx]].
  unfold responses_no_text in Hno. rewrite Forall_forall in Hno.
  destruct (String.eqb (item_type i) "message") eqn:Hm; [|destruct Hx].
  apply String.eqb_eq in Hm.
  apply in_flat_map in Hx. destruct Hx as [p [Hp Hx]].
  destruct (String.eqb (part_type p) "output_text") eqn:Ho; [|destruct Hx].
  apply String.eqb_eq in Ho. destruct Hx as [<-|[]].
  assert (Hparts := Hno i Hi). unfold item_has_no_text in Hparts.
  rewrite Hm in Hparts. specialize (Hparts (or_introl eq_refl)).
  rewrite Forall_forall in Hparts. apply (Hparts p Hp). rewrite Ho. simpl. auto.
Qed.

Lemma extract_responses_no_text (r : sdk_response) :
  responses_no_text r ->
  extract_text_from_responses [] (response_handle r) = Raise empty_response_error.
Proof.
  intros Hno. unfold extract_text_from_responses, response_handle. cbn [h_dump h_obj].
  unfold get_from_obj at 1 2. cbn [deref assoc]. simpl String.eqb. cbv iota.
  rewrite listify_outputs.
  rewrite (scan_outputs_no_text _ Hno). cbn [bind].
  unfold get_from_obj. cbn [deref assoc]. simpl String.eqb. cbv iota.
  rewrite (sdk_output_text_no_text r Hno). reflexivity.
Qed.

Lemma finish_responses_no_text (r : sdk_response) :
  responses_no_text r -> finish_responses r = Ok ASSISTANT_FALLBACK_MESSAGE.
Proof.
  intros Hno. unfold finish_responses. rewrite (extract_responses_no_text r Hno).
  reflexivity.
Qed.

Lemma call_chat_no_text (float : Type) cc msgs model (temperature : float) max_tokens cs :
  cc model msgs temperature max_tokens = Ok cs -> choices_no_text cs ->
  fst (call_chat float cc msgs model temperature max_tokens) = Ok ASSISTANT_FALLBACK_MESSAGE.
Proof.
  intros Hcc Hno. unfold call_chat. rewrite Hcc.
  destruct cs as [|c cs]; [reflexivity|].
  destruct Hno as [Hc | Hc]; unfold choice_obj; rewrite Hc; reflexivity.
Qed.

(** C7: whichever protocol the model selects, when every response the
    provider returns carries no extractable text (every output text part
    is empty under the structured protocol, the first choice's content is
    absent or empty under the legacy one, or there is no choice at all),
    [_call_openai_chat] returns the fixed fallback string and raises
    nothing; the empty-response error is recovered locally. *)
Theorem dispatch_no_text_fallback :
  forall (MINT MAXT : Z) (float : Type) rc cc msgs model (temperature : float) max_tokens,
  (should_use_responses_api model = true ->
   forall n cap, match rc n model (format_messages_for_responses msgs) cap with
                 | Ok r => responses_no_text r
                 | Raise _ => False
                 end) ->
  (should_use_responses_api model = false ->
   match cc model msgs temperature max_tokens with
   | Ok cs => choices_no_text cs
   | Raise _ => False
   end) ->
  fst (call_openai_chat MINT MAXT true true float rc cc msgs model temperature max_tokens)
  = Ok ASSISTANT_FALLBACK_MESSAGE.
Proof.
  intros MINT MAXT float rc cc msgs model temperature max_tokens Hrc Hcc.
  unfold call_openai_chat. cbn [negb].
  destruct (should_use_responses_api model) eqn:Huse.
  - specialize (Hrc eq_refl). unfold call_responses. cbv zeta.
    set (cap := Z.min (Z.max max_tokens MINT) MAXT).
    set (inp := format_messages_for_responses msgs).
    assert (H0 := Hrc 0%nat cap). fold inp in H0.
    destruct (rc 0%nat model inp cap) as [r0 | e0]; [|destruct H0].
    destruct (_ && _).
    + assert (H1 := Hrc 1%nat (retry_tokens MAXT cap)). fold inp in H1.
      destruct (rc 1%nat model inp (retry_tokens MAXT cap)) as [r1 | e1]; [|destruct H1].
      rewrite (finish_responses_no_text r1 H1). reflexivity.
    + rewrite (finish_responses_no_text r0 H0). reflexivity.
  - specialize (Hcc eq_refl).
    destruct (cc model msgs temperature max_tokens) as [cs | e] eqn:Hcs; [|destruct Hcc].
    assert (Hf := call_chat_no_text float cc msgs model temperature max_tokens cs Hcs Hcc).
    destruct (call_chat float cc msgs model temperature max_tokens) as [r trace].
    cbn [fst] in Hf |- *. rewrite Hf. reflexivity.
Qed.

Lemma dispatch_no_text_fallback_witness :
  fst (call_openai_chat 1024 4096 true true unit
         (fun _ _ _ _ => Ok (mk_response [mk_item "message" [mk_part "output_text" ""]]
                                         "completed" None))
         (fun _ _ _ _ => Ok []) [mk_msg "user" "hi"] "gpt-5-mini" tt 512)
  = Ok ASSISTANT_FALLBACK_MESSAGE.
Proof.
  apply (dispatch_no_text_fallback 1024 4096 unit
           (fun _ _ _ _ => Ok (mk_response [mk_item "message" [mk_part "output_text" ""]]
                                           "completed" None))
           (fun _ _ _ _ => Ok []) [mk_msg "user" "hi"] "gpt-5-mini" tt 512).
  - intros _ n cap. unfold responses_no_text, item_has_no_text.
    repeat constructor.
  - intros Hf. discriminate Hf.
Defined.

Lemma ensure_room_ownership_fails (room user : nat) (s : db) :
  (forall c, In c (db_chats s) -> chat_id c = room -> c_user_id c <> user) ->
  ensure_room_ownership room user s
  = (Raise (HTTPError 404 "Chat room not found or permission denied"), s).
Proof.
  intros Hown. unfold ensure_room_ownership, mbind, get_db.
  replace (find_first _ (db_chats s)) with (@None chat); [reflexivity|].
  symmetry. apply find_first_none. intros c Hc.
  destruct (Nat.eqb (chat_id c) room) eqn:Hid; [|reflexivity].
  apply Nat.eqb_eq in Hid. simpl.
  apply Nat.eqb_neq. exact (Hown c Hc Hid).
Qed.

(** C8: when no room of the database has id [room_id] and belongs to
    [user_id] (the room does not exist, or another user owns it),
    [create_message_and_reply] raises the 404 error and leaves the
    database exactly as it was: no message row is written. *)
Theorem create_message_and_reply_not_owned :
  forall rag ss lim call_openai room user content system_prompt (s : db),
  (forall c, In c (db_chats s) -> chat_id c = room -> c_user_id c <> user) ->
  create_message_and_reply rag ss lim call_openai room user content system_prompt s
  = (Raise (HTTPError 404 "Chat room not found or permission denied"), s).
Proof.
  intros rag ss lim call_openai room user content system_prompt s Hown.
  unfold create_message_and_reply, save_user_message.
  unfold mbind at 1 2. rewrite (ensure_room_ownership_fails room user s Hown).
  reflexivity.
Qed.

Lemma create_message_and_reply_not_owned_witness :
  create_message_and_reply false (fun _ => Ok []) 5 (fun _ => Ok "answer") 1 8 "hi" None
    (mk_db [mk_chat 1 7 (Some "t") (Some "AAPL") TrashOut 0] [] 0 2 1)
  = (Raise (HTTPError 404 "Chat room not found or permission denied"),
     mk_db [mk_chat 1 7 (Some "t") (Some "AAPL") TrashOut 0] [] 0 2 1).
Proof.
  apply create_message_and_reply_not_owned.
  intros c Hc Hid. destruct Hc as [<- | []]. simpl. discriminate.
Defined.

(** C1: every successful run of [create_message_and_reply] returns the
    pair [(user_msg, assistant_msg)], never a triple with the referenced
    news documents; the route that unpacks three values out of it then
    raises [ValueError] after both messages have been committed (the state
    it leaves is the one the service committed). *)
Theorem create_message_and_reply_returns_pair :
  forall rag ss lim call_openai room user content system_prompt (s s' : db) t,
  create_message_and_reply rag ss lim call_openai room user content system_prompt s
  = (Ok t, s') ->
  (exists u a, t = [RMsg u; RMsg a]) /\
  create_message_with_openai rag ss lim call_openai room user content system_prompt s
  = (Raise (ValueError "not enough values to unpack (expected 3, got 2)"), s').
Proof.
  intros rag ss lim call_openai room user content system_prompt s s' t Hrun.
  assert (Hpair : exists u a, t = [RMsg u; RMsg a]).
  { unfold create_message_and_reply, mbind in Hrun.
    destruct (save_user_message room user content s) as [[u | e] s1]; [|discriminate Hrun].
    destruct (generate_and_save_assistant_reply rag ss lim call_openai room user
                system_prompt s1) as [[a | e] s2]; [|discriminate Hrun].
    unfold ret in Hrun. injection Hrun as <- _. eauto. }
  split; [exact Hpair|].
  destruct Hpair as [u [a ->]].
  unfold create_message_with_openai. unfold mbind at 1. rewrite Hrun.
  reflexivity.
Qed.

Lemma create_message_and_reply_returns_pair_witness :
  create_message_and_reply false (fun _ => Ok []) 5 (fun _ => Ok "answer") 1 7 "hi" None c1_db0
  = (Ok [RMsg c1_user_msg; RMsg c1_assistant_msg], c1_db1) /\
  create_message_with_openai false (fun _ => Ok []) 5 (fun _ => Ok "answer") 1 7 "hi" None c1_db0
  = (Raise (ValueError "not enough values to unpack (expected 3, got 2)"), c1_db1).
Proof.
  split; [vm_compute; reflexivity|].
  apply (proj2 (create_message_and_reply_returns_pair false (fun _ => Ok []) 5
                  (fun _ => Ok "answer") 1 7 "hi" None c1_db0 c1_db1
                  [RMsg c1_user_msg; RMsg c1_assistant_msg] ltac:(vm_compute; reflexivity))).
Defined.

Lemma created_increasing_sorted (ms : list message) :
  created_increasing ms = true -> StronglySorted created_lt ms.
Proof.
  intros H. apply Sorted_StronglySorted.
  - intros a b c Hab Hbc. unfold created_lt in *. lia.
  - induction ms as [|a ms IH]; [constructor|].
    destruct ms as [|b ms]; [repeat constructor|].
    cbn [created_increasing] in H. apply andb_prop in H. destruct H as [Hab Hrest].
    constructor; [exact (IH Hrest)|]. constructor. apply Nat.ltb_lt. exact Hab.
Qed.

Lemma insert_by_created_last (m : message) (acc : list message) :
  (forall y, In y acc -> (m_created_at y <= m_created_at m)%nat) ->
  insert_by_created m acc = app acc [m].
Proof.
  induction acc as [|y acc IH]; intros Hle; [reflexivity|].
  cbn [insert_by_created]. 
  replace (m_created_at y <=? m_created_at m)%nat with true
    by (symmetry; apply Nat.leb_le; apply Hle; left; reflexivity).
  rewrite IH; [reflexivity|]. intros z Hz. apply Hle. right. exact Hz.
Qed.

Lemma order_by_created_sorted_aux (ms acc : list message) :
  StronglySorted created_lt ms ->
  (forall y z, In y acc -> In z ms -> (m_created_at y <= m_created_at z)%nat) ->
  fold_left (fun acc m => insert_by_created m acc) ms acc = app acc ms.
Proof.
  revert acc. induction ms as [|m ms IH]; intros acc Hs Hle.
  - rewrite app_nil_r. reflexivity.
  - apply StronglySorted_inv in Hs. destruct Hs as [Hs Hhd].
    rewrite Forall_forall in Hhd. cbn [fold_left].
    rewrite insert_by_created_last
      by (intros y Hy; apply Hle; [exact Hy | left; reflexivity]).
    rewrite IH; [rewrite <- app_assoc; reflexivity | exact Hs |].
    intros y z Hy Hz. apply in_app_or in Hy. destruct Hy as [Hy | [<- | []]].
    + apply Hle; [exact Hy | right; exact Hz].
    + apply Nat.lt_le_incl. exact (Hhd z Hz).
Qed.

Lemma order_by_created_sorted (ms : list message) :
  StronglySorted created_lt ms -> order_by_created ms = ms.
Proof.
  intros Hs. unfold order_by_created.
  apply (order_by_created_sorted_aux ms []); [exact Hs | intros y z []].
Qed.

Lemma sorted_app_lt (l1 l2 : list message) :
  StronglySorted created_lt (app l1 l2) ->
  forall y z, In y l1 -> In z l2 -> created_lt y z.
Proof.
  induction l1 as [|a l1 IH]; intros Hs y z Hy Hz; [destruct Hy|].
  apply StronglySorted_inv in Hs. destruct Hs as [Hs Hhd].
  destruct Hy as [<- | Hy].
  - rewrite Forall_forall in Hhd. apply Hhd. apply in_or_app. right. exact Hz.
  - exact (IH Hs y z Hy Hz).
Qed.

Lemma last_in_skipn {A : Type} (l : list A) (d : A) (k : nat) :
  (k < length l)%nat -> In (last l d) (skipn k l).
Proof.
  revert k. induction l as [|a l IH]; intros k Hk; [simpl in Hk; lia|].
  destruct k as [|k].
  - cbn [skipn]. destruct l as [|b l]; [left; reflexivity|].
    right. change (last (a :: b :: l) d) with (last (b :: l) d).
    apply (IH 0%nat). simpl. lia.
  - cbn [skipn]. destruct l as [|b l]; [simpl in Hk; lia|].
    change (last (a :: b :: l) d) with (last (b :: l) d).
    apply IH. simpl in *. lia.
Qed.

(** C2: for a room whose messages have distinct creation times,
    [_load_chat_history] returns the [limit] OLDEST messages, oldest first
    ([ORDER BY created_at ASC LIMIT limit]); when the room holds more than
    [limit] messages (and [limit > 0]) this is not the window of the
    [limit] most recent ones, which is [skipn (length ms - limit) ms]. *)
Theorem load_chat_history_keeps_oldest :
  forall (room limit : nat) (s : db) (ms : list message),
  filter (fun m => Nat.eqb (m_chat_id m) room) (db_messages s) = ms ->
  created_increasing ms = true ->
  (0 < limit < length ms)%nat ->
  load_chat_history room limit s = (Ok (firstn limit ms), s) /\
  firstn limit ms <> skipn (length ms - limit) ms.
Proof.
  intros room limit s ms Hms Hinc [Hpos Hlt].
  assert (Hs := created_increasing_sorted ms Hinc).
  split.
  - unfold load_chat_history, mbind, get_db, ret. rewrite Hms.
    rewrite (order_by_created_sorted ms Hs). reflexivity.
  - intros Heq. destruct ms as [|m0 ms']; [simpl in Hlt; lia|].
    set (x := last (m0 :: ms') m0).
    assert (Hx1 : In x (skipn (length (m0 :: ms') - limit) (m0 :: ms')))
      by (apply last_in_skipn; lia).
    assert (Hx2 : In x (skipn limit (m0 :: ms'))) by (apply last_in_skipn; lia).
    rewrite <- Heq in Hx1.
    rewrite <- (firstn_skipn limit (m0 :: ms')) in Hs.
    assert (Hxx := sorted_app_lt _ _ Hs x x Hx1 Hx2).
    unfold created_lt in Hxx. lia.
Qed.

Lemma load_chat_history_keeps_oldest_witness :
  load_chat_history 1 30 db31 = (Ok (map numbered_message (seq 1 30)), db31) /\
  map numbered_message (seq 1 30) <> map numbered_message (seq 2 30).
Proof.
  destruct (load_chat_history_keeps_oldest 1 30 db31 (map numbered_message (seq 1 31))
              ltac:(vm_compute; reflexivity) ltac:(vm_compute; reflexivity)
              ltac:(vm_compute; lia)) as [Hload Hne].
  split; [exact Hload|].
  exact Hne.
Defined.

(** C3: the lookups of [create_chat_room_for_user] and
    [get_chat_room_by_stock_for_user] filter on [TrashEnum.in_]: the
    by-stock getter only ever returns rooms that are in the trash can, and
    whenever a user has a trashed room for the stock code, creating a room
    for that code returns a trashed room of the database instead of an
    active one (whatever the column default). *)
Theorem stock_lookups_return_trashed_rooms :
  (forall user code s c s',
     get_chat_room_by_stock_for_user user code s = (Ok c, s') ->
     trash_can c = TrashIn /\ s' = s) /\
  (forall trash_default user chat_in s,
     opt_truthy (cc_stock_code chat_in) = true ->
     (exists c, In c (db_chats s) /\ owned_with_stock user (cc_stock_code chat_in) TrashIn c = true) ->
     exists c, create_chat_room_for_user trash_default user chat_in s = (Ok c, s)
               /\ In c (db_chats s) /\ trash_can c = TrashIn).
Proof.
  split.
  - intros user code s c s' H.
    unfold get_chat_room_by_stock_for_user, mbind, get_db in H.
    destruct (find_first _ (db_chats s)) as [c0 |] eqn:Hf; [|discriminate H].
    unfold ret in H. injection H as <- <-.
    apply find_first_some in Hf. destruct Hf as [_ Hp].
    unfold owned_with_stock in Hp. apply andb_prop in Hp. destruct Hp as [_ Ht].
    split; [|reflexivity]. destruct (trash_can c0); [reflexivity | discriminate Ht].
  - intros trash_default user chat_in s Hcode [c [Hin Hc]].
    unfold create_chat_room_for_user, mbind, get_db. rewrite Hcode.
    destruct (find_first (owned_with_stock user (cc_stock_code chat_in) TrashIn) (db_chats s))
      as [c0 |] eqn:Hf.
    + apply find_first_some in Hf. destruct Hf as [Hin0 Hp].
      exists c0. split; [reflexivity|]. split; [exact Hin0|].
      unfold owned_with_stock in Hp. apply andb_prop in Hp. destruct Hp as [_ Ht].
      destruct (trash_can c0); [reflexivity | discriminate Ht].
    + apply find_first_none with (x := c) in Hf; [|exact Hin].
      rewrite Hc in Hf. discriminate Hf.
Qed.

Lemma stock_lookups_return_trashed_rooms_witness :
  get_chat_room_by_stock_for_user 7 "AAPL" dbT = (Ok trashed_room, dbT) /\
  (exists c, create_chat_room_for_user TrashOut 7 (mk_chat_create (Some "x") (Some "AAPL")) dbT
             = (Ok c, dbT) /\ In c (db_chats dbT) /\ trash_can c = TrashIn).
Proof.
  split; [vm_compute; reflexivity|].
  apply (proj2 stock_lookups_return_trashed_rooms TrashOut 7
           (mk_chat_create (Some "x") (Some "AAPL")) dbT).
  - vm_compute. reflexivity.
  - exists trashed_room. split; [left; reflexivity | vm_compute; reflexivity].
Defined.

Lemma no_active_no_conflict (cs : list chat) (x : chat) (code : string) :
  stock_code x = Some code ->
  (forall c', In c' cs -> owned_with_stock (c_user_id x) (Some code) TrashOut c' = false) ->
  conflicts cs x = false.
Proof.
  intros Hx Hno. unfold conflicts. apply not_true_iff_false. intros H.
  apply existsb_exists in H. destruct H as [c' [Hin Hc]].
  assert (Hc' := Hno c' Hin). rewrite Hx in Hc.
  apply andb_prop in Hc as [Hc _]. apply andb_prop in Hc as [Hc Hd].
  apply andb_prop in Hc as [Hc Hs]. apply andb_prop in Hc as [_ Hu].
  unfold owned_with_stock in Hc'. rewrite Hu, Hd in Hc'.
  destruct (stock_code c') as [b|]; [|discriminate Hs].
  cbn [opt_eqb] in Hc'. rewrite String.eqb_sym, Hs in Hc'. discriminate Hc'.
Qed.

Lemma latest_by_id_aux (cs : list chat) (best : option chat) (l : chat) :
  fold_left latest_step cs best = Some l ->
  (In l cs \/ best = Some l) /\ (forall c, In c cs -> (chat_id c <= chat_id l)%nat) /\
  (forall b, best = Some b -> (chat_id b <= chat_id l)%nat).
Proof.
  revert best. induction cs as [|c cs IH]; intros best H.
  - cbn [fold_left] in H. subst best. split; [right; reflexivity|].
    split; [intros c []|]. intros b [= ->]. lia.
  - cbn [fold_left] in H. destruct (IH _ H) as [Hin [Hall Hbest]].
    unfold latest_step in Hin, Hbest at 1.
    destruct best as [b|].
    + destruct (chat_id b <? chat_id c)%nat eqn:Hlt.
      * apply Nat.ltb_lt in Hlt. specialize (Hbest c eq_refl).
        split; [destruct Hin as [Hin | [= ->]]; [left; right; exact Hin | left; left; reflexivity]|].
        split; [intros c' [<- | Hc']; [exact Hbest | apply Hall; exact Hc']|].
        intros b' [= <-]. lia.
      * apply Nat.ltb_ge in Hlt. specialize (Hbest b eq_refl).
        split; [destruct Hin as [Hin | Hb]; [left; right; exact Hin | right; exact Hb]|].
        split; [intros c' [<- | Hc']; [lia | apply Hall; exact Hc']|].
        intros b' [= <-]. exact Hbest.
    + specialize (Hbest c eq_refl).
      split; [destruct Hin as [Hin | [= ->]]; [left; right; exact Hin | left; left; reflexivity]|].
      split; [intros c' [<- | Hc']; [exact Hbest | apply Hall; exact Hc']|].
      intros b' Hb'. discriminate Hb'.
Qed.

Lemma latest_by_id_some (cs : list chat) (l : chat) :
  latest_by_id cs = Some l ->
  In l cs /\ (forall c, In c cs -> (chat_id c <= chat_id l)%nat).
Proof.
  intros H. destruct (latest_by_id_aux cs None l H) as [[Hin | Hn] [Hall _]];
    [split; assumption | discriminate Hn].
Qed.

Lemma latest_by_id_none (cs : list chat) : latest_by_id cs = None -> cs = [].
Proof.
  intros H. destruct cs as [|c cs]; [reflexivity|].
  exfalso. unfold latest_by_id in H. cbn [fold_left] in H.
  assert (Hgen : forall cs' b, fold_left latest_step cs' (Some b) <> None).
  { induction cs' as [|c' cs' IH]; intros b; cbn [fold_left];
      [discriminate | unfold latest_step at 2; destruct (_ <? _)%nat; apply IH]. }
  exact (Hgen cs c H).
Qed.

Lemma replace_chat_in (x c : chat) (cs : list chat) :
  In c cs -> chat_id c = chat_id x -> In x (replace_chat x cs).
Proof.
  intros Hin Hid. unfold replace_chat. apply in_map_iff.
  exists c. split; [|exact Hin]. rewrite Hid, Nat.eqb_refl. reflexivity.
Qed.

Lemma rooms_of_spec (s : db) (user : nat) (code : string) (t : trash) (c : chat) :
  In c (rooms_of s user code t) ->
  In c (db_chats s) /\ c_user_id c = user /\ stock_code c = Some code /\ trash_can c = t.
Proof.
  unfold rooms_of. intros H. apply filter_In in H. destruct H as [Hin Hp].
  unfold owned_with_stock in Hp.
  apply andb_prop in Hp as [Hp Ht]. apply andb_prop in Hp as [Hu Hs].
  apply Nat.eqb_eq in Hu.
  split; [exact Hin|]. split; [exact Hu|]. split.
  - destruct (stock_code c) as [b|]; [|discriminate Hs].
    cbn [opt_eqb] in Hs. apply String.eqb_eq in Hs. subst b. reflexivity.
  - destruct (trash_can c), t; try reflexivity; discriminate Ht.
Qed.

Lemma upsert_active (user : nat) (code : string) (new_title : option string) (s : db) (c : chat) :
  find_first (owned_with_stock user (Some code) TrashOut) (db_chats s) = Some c ->
  upsert_chat_by_stock user code new_title s = (Ok (c, true), s).
Proof.
  intros Hf. unfold upsert_chat_by_stock, get_active_chat_by_stock, mbind, get_db, ret.
  rewrite Hf. reflexivity.
Qed.

Lemma upsert_restore (user : nat) (code : string) (new_title : option string) (s : db) (r : chat) :
  find_first (owned_with_stock user (Some code) TrashOut) (db_chats s) = None ->
  latest_by_id (rooms_of s user code TrashIn) = Some r ->
  upsert_chat_by_stock user code new_title s
  = (Ok (with_title_trash r (restored_title (title r) new_title) TrashOut, false),
     mk_db (replace_chat (with_title_trash r (restored_title (title r) new_title) TrashOut)
                         (db_chats s))
           (db_messages s) (S (db_clock s)) (db_next_chat s) (db_next_msg s)).
Proof.
  intros Hf Hl.
  destruct (latest_by_id_some _ _ Hl) as [Hr _].
  destruct (rooms_of_spec _ _ _ _ _ Hr) as [_ [Hu [Hcode _]]].
  assert (Hno := proj1 (find_first_none _ _) Hf).
  unfold upsert_chat_by_stock, get_active_chat_by_stock, mbind, get_db, ret.
  rewrite Hf. unfold rooms_of in Hl. rewrite Hl.
  unfold commit_chat, mbind, get_db, put_db, ret.
  rewrite (no_active_no_conflict (db_chats s) _ code); [reflexivity | exact Hcode |].
  intros c' Hc'. cbn [c_user_id with_title_trash]. rewrite Hu. exact (Hno c' Hc').
Qed.

Lemma upsert_create (user : nat) (code : string) (new_title : option string) (s : db) :
  find_first (owned_with_stock user (Some code) TrashOut) (db_chats s) = None ->
  rooms_of s user code TrashIn = [] ->
  upsert_chat_by_stock user code new_title s
  = (Ok (mk_chat (db_next_chat s) user (Some (new_room_title code new_title)) (Some code)
                 TrashOut (db_clock s), false),
     mk_db (app (db_chats s) [mk_chat (db_next_chat s) user (Some (new_room_title code new_title))
                                      (Some code) TrashOut (db_clock s)])
           (db_messages s) (S (db_clock s)) (S (db_next_chat s)) (db_next_msg s)).
Proof.
  intros Hf Hnil.
  assert (Hno := proj1 (find_first_none _ _) Hf).
  unfold upsert_chat_by_stock, get_active_chat_by_stock, mbind, get_db, ret.
  rewrite Hf. unfold rooms_of in Hnil. rewrite Hnil. cbn [latest_by_id fold_left].
  unfold catch_integrity, commit_new_chat, mbind, get_db, put_db, ret.
  rewrite (no_active_no_conflict (db_chats s) _ code); [reflexivity | reflexivity |].
  intros c' Hc'. exact (Hno c' Hc').
Qed.

Lemma update_trash_in (room user : nat) (s s1 : db) (r : chat) :
  update_chat_room_for_user room user (mk_chat_update None (Some "in")) s = (Ok r, s1) ->
  In r (db_chats s1) /\ chat_id r = room /\ c_user_id r = user /\ trash_can r = TrashIn.
Proof.
  intros H. unfold update_chat_room_for_user, mbind, get_db in H.
  destruct (find_first _ (db_chats s)) as [c |] eqn:Hf; [|discriminate H].
  apply find_first_some in Hf. destruct Hf as [Hin Hp].
  apply andb_prop in Hp as [Hid Hu]. apply Nat.eqb_eq in Hid. apply Nat.eqb_eq in Hu.
  cbn [cu_title cu_trash_can] in H.
  replace (trash_of_value "in") with (Some TrashIn) in H by reflexivity.
  unfold ret, commit_chat, mbind, get_db, put_db, ret in H. cbn [fst snd] in H.
  destruct (conflicts (db_chats s) (with_title_trash c (title c) TrashIn)); [discriminate H|].
  injection H as <- <-. cbn [db_chats].
  split; [apply (replace_chat_in _ c); [exact Hin | reflexivity]|].
  cbn. auto.
Qed.

(** C9 (counterexample): room 2 of user 7 for ["X"] is already in the
    trash can when the user trashes room 1 and asks for the ["X"] room
    again: [upsert_chat_by_stock] restores room 2 (the largest id among
    the trashed rooms), not the room just trashed. *)
Lemma upsert_after_trash_restores_other_room :
  update_chat_room_for_user 1 7 (mk_chat_update None (Some "in")) db2
  = (Ok (mk_chat 1 7 (Some "a") (Some "X") TrashIn 0), db2_trashed) /\
  fst (upsert_chat_by_stock 7 "X" None db2_trashed)
  = Ok (mk_chat 2 7 (Some "b") (Some "X") TrashOut 0, false).
Proof. split; vm_compute; reflexivity. Qed.

(** C9 (amended): [upsert_chat_by_stock] for a user and a normalised code
    [code] in state [s]:
    - an active room [c] found by the lookup is returned with [true],
      nothing written;
    - otherwise the trashed room [r] of the user for [code] with the
      largest id is restored (trash flag cleared, same id, title replaced by
      the stripped new title when that is non-empty): that row is replaced
      in the rooms table by one commit, and the restored room is returned
      with [false];
    - otherwise a new active room is created, titled with the stripped new
      title or ["{code} 채팅"]: it is appended to the rooms table with the
      next room id by one commit, and returned with [false];
    - in particular, when room [room] was just moved to the trash can and
      is now the user's trashed room for [code] with the largest id (e.g.
      the only one), the call restores room [room] (active again, written
      back in place) and returns it with [false]. *)
Theorem upsert_chat_by_stock_cases :
  forall (user : nat) (code : string) (new_title : option string) (s : db),
  (forall c, find_first (owned_with_stock user (Some code) TrashOut) (db_chats s) = Some c ->
     upsert_chat_by_stock user code new_title s = (Ok (c, true), s)) /\
  (find_first (owned_with_stock user (Some code) TrashOut) (db_chats s) = None ->
     forall r, latest_by_id (rooms_of s user code TrashIn) = Some r ->
     In r (rooms_of s user code TrashIn) /\
     (forall r', In r' (rooms_of s user code TrashIn) -> (chat_id r' <= chat_id r)%nat) /\
     upsert_chat_by_stock user code new_title s
     = (Ok (with_title_trash r (restored_title (title r) new_title) TrashOut, false),
        mk_db (replace_chat (with_title_trash r (restored_title (title r) new_title) TrashOut)
                            (db_chats s))
              (db_messages s) (S (db_clock s)) (db_next_chat s) (db_next_msg s))) /\
  (find_first (owned_with_stock user (Some code) TrashOut) (db_chats s) = None ->
     rooms_of s user code TrashIn = [] ->
     upsert_chat_by_stock user code new_title s
     = (Ok (mk_chat (db_next_chat s) user (Some (new_room_title code new_title)) (Some code)
                    TrashOut (db_clock s), false),
        mk_db (app (db_chats s) [mk_chat (db_next_chat s) user
                                         (Some (new_room_title code new_title))
                                         (Some code) TrashOut (db_clock s)])
              (db_messages s) (S (db_clock s)) (S (db_next_chat s)) (db_next_msg s))) /\
  (forall room s0 r0,
     update_chat_room_for_user room user (mk_chat_update None (Some "in")) s0 = (Ok r0, s) ->
     stock_code r0 = Some code ->
     find_first (owned_with_stock user (Some code) TrashOut) (db_chats s) = None ->
     (forall r', In r' (rooms_of s user code TrashIn) -> (chat_id r' <= room)%nat) ->
     exists c, upsert_chat_by_stock user code new_title s
               = (Ok (c, false), mk_db (replace_chat c (db_chats s)) (db_messages s)
                                       (S (db_clock s)) (db_next_chat s) (db_next_msg s))
               /\ chat_id c = room /\ trash_can c = TrashOut).
Proof.
  intros user code new_title s.
  split; [exact (upsert_active user code new_title s)|].
  split.
  { intros Hf r Hl. destruct (latest_by_id_some _ _ Hl) as [Hin Hmax].
    split; [exact Hin|]. split; [exact Hmax|].
    exact (upsert_restore user code new_title s r Hf Hl). }
  split; [exact (upsert_create user code new_title s)|].
  intros room s0 r0 Hupd Hcode Hf Hle.
  destruct (update_trash_in _ _ _ _ _ Hupd) as [Hin [Hid [Hu Ht]]].
  assert (Hr0 : In r0 (rooms_of s user code TrashIn)).
  { unfold rooms_of. apply filter_In. split; [exact Hin|].
    unfold owned_with_stock. rewrite Hu, Hcode, Ht, Nat.eqb_refl.
    cbn [opt_eqb trash_eqb]. rewrite String.eqb_refl. reflexivity. }
  destruct (latest_by_id (rooms_of s user code TrashIn)) as [l |] eqn:Hl.
  - destruct (latest_by_id_some _ _ Hl) as [Hlin Hmax].
    exists (with_title_trash l (restored_title (title l) new_title) TrashOut).
    split; [exact (upsert_restore user code new_title s l Hf Hl)|].
    split; [| reflexivity].
    cbn [with_title_trash chat_id]. specialize (Hmax r0 Hr0). specialize (Hle l Hlin). lia.
  - apply latest_by_id_none in Hl. rewrite Hl in Hr0. destruct Hr0.
Qed.

Lemma upsert_chat_by_stock_cases_witness :
  exists c, upsert_chat_by_stock 7 "X" None dbU_trashed
            = (Ok (c, false), mk_db (replace_chat c (db_chats dbU_trashed)) (db_messages dbU_trashed)
                                    (S (db_clock dbU_trashed)) (db_next_chat dbU_trashed)
                                    (db_next_msg dbU_trashed))
            /\ chat_id c = 1 /\ trash_can c = TrashOut.
Proof.
  apply (proj2 (proj2 (proj2 (upsert_chat_by_stock_cases 7 "X" None dbU_trashed)))
           1 dbU (mk_chat 1 7 (Some "a") (Some "X") TrashIn 0)).
  - vm_compute. reflexivity.
  - reflexivity.
  - vm_compute. reflexivity.
  - intros r' Hr'. vm_compute in Hr'. destruct Hr' as [<- | []]. vm_compute. lia.
Defined.

(** Case analysis on every [Nat.leb] of the goal, then arithmetic. *)
Ltac leb_cases :=
  repeat match goal with
  | |- context [Nat.leb ?a ?b] => destruct (Nat.leb_spec a b)
  end; cbn [andb orb negb]; first [reflexivity | discriminate | lia | idtac].

Lemma upper_ascii_ok (c : ascii) :
  is_space c = false ->
  is_lower_ascii (upper_ascii c) = false /\ is_space (upper_ascii c) = false.
Proof.
  intros Hsp. pose proof (nat_ascii_bounded c) as Hb.
  unfold upper_ascii, is_lower_ascii, is_space in *. cbv zeta in *.
  destruct (((97 <=? nat_of_ascii c) && (nat_of_ascii c <=? 122))%nat) eqn:Hl.
  - rewrite nat_ascii_embedding by lia. revert Hl Hsp Hb.
    generalize (nat_of_ascii c) as n. intros n.
    leb_cases; intros; split; leb_cases.
  - split; assumption.
Qed.

Lemma strip_upper_no_lower_space (raw : string) :
  forallb (fun c => negb (is_lower_ascii c) && negb (is_space c))
          (list_ascii_of_string (strip_upper raw)) = true.
Proof.
  unfold strip_upper. rewrite list_ascii_of_string_of_list_ascii.
  apply forallb_forall. intros c Hc.
  apply in_map_iff in Hc. destruct Hc as [c0 [<- Hc0]].
  apply filter_In in Hc0. destruct Hc0 as [_ Hsp].
  apply negb_true_iff in Hsp.
  destruct (upper_ascii_ok c0 Hsp) as [H1 H2]. rewrite H1, H2. reflexivity.
Qed.

(** C10: stock-code normalisation on ASCII text.  The normalised form of
    any raw code (whitespace removed, letters upper-cased) has no lowercase
    letter and no whitespace; a successful normalisation returns exactly
    that form, which matches [^[A-Z0-9.\-]{1,20}$]; a normalised form
    that is empty, longer than 20 characters or has a character outside
    [A-Z], [0-9], ['.'], ['-'] makes it raise [ValueError]; and a valid
    normalised form is returned. *)
Theorem normalize_stock_code_spec :
  forall raw : string,
  forallb (fun c => negb (is_lower_ascii c) && negb (is_space c))
          (list_ascii_of_string (strip_upper raw)) = true /\
  (forall out, normalize_stock_code (Some raw) = Ok out ->
     out = strip_upper raw /\ stock_pattern_match out = true) /\
  (strip_upper raw = "" \/ (20 < String.length (strip_upper raw))%nat \/
   existsb (fun c => negb (stock_char_ok c)) (list_ascii_of_string (strip_upper raw)) = true ->
     exists msg, normalize_stock_code (Some raw) = Raise (ValueError msg)) /\
  (stock_pattern_match (strip_upper raw) = true ->
     normalize_stock_code (Some raw) = Ok (strip_upper raw)).
Proof.
  intros raw. split; [apply strip_upper_no_lower_space|].
  unfold normalize_stock_code. cbv zeta.
  set (u := strip_upper raw). clearbody u.
  assert (Hlen : String.length u = length (list_ascii_of_string u)).
  { clear. induction u as [|a u IH]; [reflexivity|]. cbn. rewrite IH. reflexivity. }
  split; [|split].
  - intros out H.
    destruct (String.eqb u "") eqn:He; [discriminate H|].
    destruct (20 <? String.length u)%nat eqn:Hl; [discriminate H|].
    destruct (stock_pattern_match u) eqn:Hp; [|discriminate H].
    cbn [negb] in H. injection H as <-. split; [reflexivity | exact Hp].
  - intros Hbad.
    destruct (String.eqb u "") eqn:He; [eexists; reflexivity|].
    destruct (20 <? String.length u)%nat eqn:Hl; [eexists; reflexivity|].
    destruct (stock_pattern_match u) eqn:Hp; [|eexists; reflexivity].
    exfalso. apply String.eqb_neq in He. apply Nat.ltb_ge in Hl.
    unfold stock_pattern_match in Hp.
    apply andb_prop in Hp as [_ Hall]. rewrite forallb_forall in Hall.
    destruct Hbad as [Hbad | [Hbad | Hbad]].
    + exact (He Hbad).
    + lia.
    + apply existsb_exists in Hbad. destruct Hbad as [c [Hc Hnc]].
      rewrite (Hall c Hc) in Hnc. discriminate Hnc.
  - intros Hp.
    assert (He : String.eqb u "" = false).
    { apply String.eqb_neq. intros ->. discriminate Hp. }
    assert (Hl : (20 <? String.length u)%nat = false).
    { apply Nat.ltb_ge. unfold stock_pattern_match in Hp.
      apply andb_prop in Hp as [Hp _]. apply andb_prop in Hp as [_ Hp].
      apply Nat.leb_le in Hp. lia. }
    rewrite He, Hl, Hp. reflexivity.
Qed.

Lemma normalize_stock_code_spec_witness :
  normalize_stock_code (Some " aa pl ") = Ok "AAPL" /\
  (exists msg, normalize_stock_code (Some "ab$") = Raise (ValueError msg)).
Proof.
  split.
  - apply (proj2 (proj2 (proj2 (normalize_stock_code_spec " aa pl ")))).
    vm_compute. reflexivity.
  - apply (proj1 (proj2 (proj2 (normalize_stock_code_spec "ab$")))).
    right. right. vm_compute. reflexivity.
Defined.

(* ------------------------------------------------------------------------- *)
(** ** Further properties of the code *)

Lemma find_first_replace (p : chat -> bool) (x : chat) (cs : list chat) :
  p x = true -> (forall y, In y cs -> p y = false) ->
  (exists y, In y cs /\ chat_id y = chat_id x) ->
  find_first p (replace_chat x cs) = Some x.
Proof.
  intros Hx Hall [y [Hy Hid]]. induction cs as [|z cs IH]; [destruct Hy|].
  cbn [replace_chat map find_first]. fold (replace_chat x cs).
  destruct (Nat.eqb (chat_id z) (chat_id x)) eqn:Hz; [rewrite Hx; reflexivity|].
  rewrite (Hall z (or_introl eq_refl)).
  destruct Hy as [<- | Hy]; [apply Nat.eqb_neq in Hz; contradiction|].
  apply IH; [intros w Hw; apply Hall; right; exact Hw | exact Hy].
Qed.

Lemma find_first_app_last {A : Type} (p : A -> bool) (x : A) (cs : list A) :
  p x = true -> (forall y, In y cs -> p y = false) -> find_first p (app cs [x]) = Some x.
Proof.
  intros Hx Hall. induction cs as [|z cs IH]; cbn; [rewrite Hx; reflexivity|].
  rewrite (Hall z (or_introl eq_refl)). apply IH. intros w Hw. apply Hall. right. exact Hw.
Qed.

(** After a successful [upsert_chat_by_stock], the room it returned is the
    one the active lookup finds. *)
Lemma upsert_ok_active (user : nat) (code : string) (t : option string) (s s1 : db)
    (c : chat) (b : bool) :
  upsert_chat_by_stock user code t s = (Ok (c, b), s1) ->
  find_first (owned_with_stock user (Some code) TrashOut) (db_chats s1) = Some c.
Proof.
  intros H. unfold upsert_chat_by_stock, get_active_chat_by_stock, mbind, get_db, ret in H.
  destruct (find_first (owned_with_stock user (Some code) TrashOut) (db_chats s))
    as [c0 |] eqn:Hf.
  - injection H as -> _ <-. exact Hf.
  - assert (Hno := proj1 (find_first_none _ _) Hf).
    destruct (latest_by_id (filter (owned_with_stock user (Some code) TrashIn) (db_chats s)))
      as [r |] eqn:Hl.
    + destruct (latest_by_id_some _ _ Hl) as [Hr _].
      destruct (rooms_of_spec s user code TrashIn r Hr) as [Hin [Hu [Hcode _]]].
      unfold commit_chat, mbind, get_db, put_db, ret in H.
      match type of H with
      | context [conflicts ?cs ?x] => destruct (conflicts cs x)
      end; [discriminate H|].
      injection H as <- _ <-. cbn [db_chats].
      apply find_first_replace; [| exact Hno | exists r; split; [exact Hin | reflexivity]].
      unfold owned_with_stock. cbn [c_user_id stock_code trash_can with_title_trash].
      rewrite Hu, Hcode, Nat.eqb_refl. cbn [opt_eqb trash_eqb]. rewrite String.eqb_refl.
      reflexivity.
    + unfold catch_integrity, commit_new_chat, mbind, get_db, put_db, ret in H.
      match type of H with
      | context [conflicts ?cs ?x] => destruct (conflicts cs x)
      end.
      * cbn [raise] in H. unfold get_active_chat_by_stock, mbind, get_db, ret in H.
        rewrite Hf in H. discriminate H.
      * injection H as <- _ <-. cbn [db_chats].
        apply find_first_app_last; [| exact Hno].
        unfold owned_with_stock. cbn [c_user_id stock_code trash_can].
        rewrite Nat.eqb_refl. cbn [opt_eqb trash_eqb]. rewrite String.eqb_refl.
        reflexivity.
Qed.

(** X1: calling [upsert_chat_by_stock] again for the same user and code,
    right after a successful call and with any title, returns the same
    room with [existed = true] and writes nothing: the operation is
    idempotent on the room it hands out. *)
Theorem upsert_chat_by_stock_idempotent :
  forall (user : nat) (code : string) (t t' : option string) (s s1 : db) (c : chat) (b : bool),
  upsert_chat_by_stock user code t s = (Ok (c, b), s1) ->
  upsert_chat_by_stock user code t' s1 = (Ok (c, true), s1).
Proof.
  intros user code t t' s s1 c b H.
  apply upsert_active. exact (upsert_ok_active user code t s s1 c b H).
Qed.

Lemma upsert_chat_by_stock_idempotent_witness :
  upsert_chat_by_stock 7 "X" (Some "t") db_empty
  = (Ok (mk_chat 1 7 (Some "t") (Some "X") TrashOut 0, false),
     mk_db [mk_chat 1 7 (Some "t") (Some "X") TrashOut 0] [] 1 2 1) /\
  upsert_chat_by_stock 7 "X" None (mk_db [mk_chat 1 7 (Some "t") (Some "X") TrashOut 0] [] 1 2 1)
  = (Ok (mk_chat 1 7 (Some "t") (Some "X") TrashOut 0, true),
     mk_db [mk_chat 1 7 (Some "t") (Some "X") TrashOut 0] [] 1 2 1).
Proof.
  assert (H1 : upsert_chat_by_stock 7 "X" (Some "t") db_empty
               = (Ok (mk_chat 1 7 (Some "t") (Some "X") TrashOut 0, false),
                  mk_db [mk_chat 1 7 (Some "t") (Some "X") TrashOut 0] [] 1 2 1))
    by (vm_compute; reflexivity).
  split; [exact H1|].
  exact (upsert_chat_by_stock_idempotent 7 "X" (Some "t") None db_empty _ _ false H1).
Defined.


Lemma upsert_ok_stock (user : nat) (code : string) (t : option string) (s s1 : db)
    (c : chat) (b : bool) :
  upsert_chat_by_stock user code t s = (Ok (c, b), s1) ->
  stock_code c = Some code /\ c_user_id c = user /\ trash_can c = TrashOut /\ In c (db_chats s1).
Proof.
  intros H. apply upsert_ok_active in H. apply find_first_some in H.
  destruct H as [Hin Hp]. unfold owned_with_stock in Hp.
  apply andb_prop in Hp as [Hp Ht]. apply andb_prop in Hp as [Hu Hs].
  apply Nat.eqb_eq in Hu.
  destruct (stock_code c) as [b'|]; [|discriminate Hs].
  cbn [opt_eqb] in Hs. apply String.eqb_eq in Hs. subst b'.
  split; [reflexivity|]. split; [exact Hu|]. split; [|exact Hin].
  destruct (trash_can c); [discriminate Ht | reflexivity].
Qed.



Lemma ensure_room_ownership_state (room user : nat) (s : db) :
  snd (ensure_room_ownership room user s) = s.
Proof.
  unfold ensure_room_ownership, mbind, get_db. destruct (find_first _ _); reflexivity.
Qed.

(** X3: [fetch_chat_messages] never writes to the database, and for a room
    that does not exist or that the caller does not own it raises the 404
    error. *)
Theorem fetch_chat_messages_read_only :
  forall (room user : nat) (last : option nat) (s : db),
  snd (fetch_chat_messages room user last s) = s /\
  ((forall c, In c (db_chats s) -> chat_id c = room -> c_user_id c <> user) ->
   fst (fetch_chat_messages room user last s)
   = Raise (HTTPError 404 "Chat room not found or permission denied")).
Proof.
  intros room user last s. split.
  - unfold fetch_chat_messages. unfold mbind at 1.
    assert (Hst := ensure_room_ownership_state room user s).
    destruct (ensure_room_ownership room user s) as [[c | e] s1]; cbn in Hst; subst s1;
      reflexivity.
  - intros Hown. unfold fetch_chat_messages. unfold mbind at 1.
    rewrite (ensure_room_ownership_fails room user s Hown). reflexivity.
Qed.

Lemma fetch_chat_messages_read_only_witness :
  fst (fetch_chat_messages 1 8 None c1_db1)
  = Raise (HTTPError 404 "Chat room not found or permission denied").
Proof.
  apply (proj2 (fetch_chat_messages_read_only 1 8 None c1_db1)).
  intros c Hc Hid. destruct Hc as [<- | []]. discriminate.
Defined.

Lemma insert_by_created_in (m x : message) (l : list message) :
  In x (insert_by_created m l) <-> m = x \/ In x l.
Proof.
  induction l as [|y l IH]; cbn [insert_by_created].
  - cbn. tauto.
  - destruct (m_created_at y <=? m_created_at m)%nat.
    + cbn [In]. rewrite IH. tauto.
    + cbn [In]. tauto.
Qed.

Lemma insert_by_created_sorted (m : message) (l : list message) :
  StronglySorted created_le l -> StronglySorted created_le (insert_by_created m l).
Proof.
  induction l as [|y l IH]; intros Hs; cbn [insert_by_created].
  - repeat constructor.
  - apply StronglySorted_inv in Hs as Hs'. destruct Hs' as [Hl Hy].
    destruct (m_created_at y <=? m_created_at m)%nat eqn:Hle.
    + apply Nat.leb_le in Hle. constructor; [exact (IH Hl)|].
      rewrite Forall_forall in *. intros z Hz. apply insert_by_created_in in Hz.
      destruct Hz as [<- | Hz]; [exact Hle | exact (Hy z Hz)].
    + apply Nat.leb_gt in Hle. constructor; [exact Hs|].
      rewrite Forall_forall in *. intros z [<- | Hz]; unfold created_le in *; [lia|].
      specialize (Hy z Hz). lia.
Qed.







Lemma ensure_room_ownership_ok (room user : nat) (s s' : db) (c : chat) :
  ensure_room_ownership room user s = (Ok c, s') ->
  s' = s /\ In c (db_chats s) /\ chat_id c = room /\ c_user_id c = user.
Proof.
  unfold ensure_room_ownership, mbind, get_db, ret, raise.
  destruct (find_first _ (db_chats s)) as [c0 |] eqn:Hf; [|discriminate].
  intros H. injection H as <- <-. apply find_first_some in Hf. destruct Hf as [Hin Hp].
  apply andb_prop in Hp as [Hid Hu]. apply Nat.eqb_eq in Hid. apply Nat.eqb_eq in Hu.
  auto.
Qed.

Lemma filter_none {A : Type} (p : A -> bool) (l : list A) :
  (forall x, In x l -> p x = false) -> filter p l = [].
Proof.
  induction l as [|y l IH]; intros H; [reflexivity|]. cbn.
  rewrite (H y (or_introl eq_refl)). apply IH. intros x Hx. apply H. right. exact Hx.
Qed.

(** The row [commit_message] writes back for a room: [lastchat_at] set. *)
Lemma commit_message_ok (c : chat) (mk : nat -> nat -> message) (s s' : db) (m : message) :
  commit_message c mk s = (Ok m, s') ->
  m = mk (db_next_msg s) (db_clock s) /\
  s' = mk_db (replace_chat (mk_chat (chat_id c) (c_user_id c) (title c) (stock_code c)
                                    (trash_can c) (db_clock s)) (db_chats s))
             (app (db_messages s) [m]) (S (db_clock s)) (db_next_chat s) (S (db_next_msg s)).
Proof.
  unfold commit_message, mbind, get_db, put_db, ret. intros H. injection H as <- <-. auto.
Qed.

Lemma save_user_message_ok (room user : nat) (content : string) (s s1 : db) (m : message) :
  save_user_message room user content s = (Ok m, s1) ->
  exists c, In c (db_chats s) /\ chat_id c = room /\ c_user_id c = user /\
  m = mk_message (db_next_msg s) room user RoleUser content (db_clock s) /\
  s1 = mk_db (replace_chat (mk_chat (chat_id c) (c_user_id c) (title c) (stock_code c)
                                    (trash_can c) (db_clock s)) (db_chats s))
             (app (db_messages s) [m]) (S (db_clock s)) (db_next_chat s) (S (db_next_msg s)).
Proof.
  unfold save_user_message, mbind at 1. intros H.
  destruct (ensure_room_ownership room user s) as [[c | e] s0] eqn:He; [|discriminate H].
  destruct (ensure_room_ownership_ok _ _ _ _ _ He) as [-> [Hin [Hid Hu]]].
  destruct (commit_message_ok _ _ _ _ _ H) as [Hm Hs1].
  exists c. auto.
Qed.

(** X5: a message saved by [save_user_message] (the route
    [POST /rooms/{room_id}/messages]) is what the owner's next poll of
    [fetch_chat_messages] returns: with [last_message_id = k], where [k]
    is at least every earlier message id of the room and below the next
    id, the poll returns exactly that message. *)
Theorem save_then_fetch_chat_messages :
  forall (room user k : nat) (content : string) (s s1 : db) (m : message),
  save_user_message room user content s = (Ok m, s1) ->
  (forall m', In m' (db_messages s) -> m_chat_id m' = room -> (messages_id m' <= k)%nat) ->
  (k < db_next_msg s)%nat ->
  fetch_chat_messages room user (Some k) s1 = (Ok [m], s1).
Proof.
  intros room user k content s s1 m H Hold Hk.
  destruct (save_user_message_ok _ _ _ _ _ _ H) as [c [Hin [Hid [Hu [Hm Hs1]]]]].
  unfold fetch_chat_messages, ensure_room_ownership. unfold mbind at 1 2.
  unfold get_db.
  set (c' := mk_chat (chat_id c) (c_user_id c) (title c) (stock_code c) (trash_can c) (db_clock s)).
  assert (Hc' : In c' (db_chats s1)).
  { rewrite Hs1. cbn [db_chats]. apply (replace_chat_in c' c); [exact Hin | reflexivity]. }
  destruct (find_first (fun c0 => Nat.eqb (chat_id c0) room && Nat.eqb (c_user_id c0) user)
              (db_chats s1)) eqn:Hf.
  - unfold mbind, get_db, ret. f_equal. f_equal.
    rewrite Hs1. cbn [db_messages]. rewrite filter_app.
    rewrite filter_app.
    replace (filter (fun m0 => (k <? messages_id m0)%nat)
               (filter (fun m0 => Nat.eqb (m_chat_id m0) room) (db_messages s))) with (@nil message).
    + assert (Hlt : (k <? db_next_msg s)%nat = true) by (apply Nat.ltb_lt; exact Hk).
      subst m. cbn [app filter messages_id m_chat_id]. rewrite Nat.eqb_refl.
      cbn [app filter messages_id m_chat_id]. rewrite Hlt. reflexivity.
    + symmetry. apply filter_none. intros x Hx. apply filter_In in Hx. destruct Hx as [Hx Hr].
      apply Nat.eqb_eq in Hr. apply Nat.ltb_ge. exact (Hold x Hx Hr).
  - exfalso. apply (proj1 (find_first_none _ _) Hf c') in Hc'.
    cbn [c' chat_id c_user_id] in Hc'. rewrite Hid, Hu, !Nat.eqb_refl in Hc'. discriminate Hc'.
Qed.

Lemma save_then_fetch_chat_messages_witness :
  save_user_message 1 7 "more" c1_db1
  = (Ok (mk_message 3 1 7 RoleUser "more" 2), snd (save_user_message 1 7 "more" c1_db1)) /\
  fetch_chat_messages 1 7 (Some 2) (snd (save_user_message 1 7 "more" c1_db1))
  = (Ok [mk_message 3 1 7 RoleUser "more" 2], snd (save_user_message 1 7 "more" c1_db1)).
Proof.
  assert (Hs : save_user_message 1 7 "more" c1_db1
               = (Ok (mk_message 3 1 7 RoleUser "more" 2),
                  snd (save_user_message 1 7 "more" c1_db1)))
    by (vm_compute; reflexivity).
  split; [exact Hs |].
  apply (save_then_fetch_chat_messages 1 7 2 "more" c1_db1 _ _ Hs).
  - intros m' Hm' _. vm_compute in Hm'.
    destruct Hm' as [<- | [<- | []]]; vm_compute; lia.
  - vm_compute. lia.
Defined.

Lemma fallback_nonempty : ASSISTANT_FALLBACK_MESSAGE <> ""%string.
Proof. unfold ASSISTANT_FALLBACK_MESSAGE. discriminate. Qed.

Lemma nonempty_or_fallback (text : string) (t : string) :
  (if String.eqb text "" then Ok ASSISTANT_FALLBACK_MESSAGE else Ok text) = Ok t ->
  t <> ""%string.
Proof.
  destruct (String.eqb text "") eqn:E; intro H; injection H as <-.
  - exact fallback_nonempty.
  - apply String.eqb_neq. exact E.
Qed.

Lemma finish_responses_nonempty (r : sdk_response) (t : string) :
  finish_responses r = Ok t -> t <> ""%string.
Proof.
  unfold finish_responses.
  destruct (extract_text_from_responses [] (response_handle r)) as [text | e].
  - apply nonempty_or_fallback.
  - destruct (is_empty_openai_http_error e); intro H; [|discriminate H].
    injection H as <-. exact fallback_nonempty.
Qed.

Lemma handle_dispatch_error_shape (r : result string) :
  (forall t, r = Ok t -> t <> ""%string) ->
  match handle_dispatch_error r with
  | Ok t => t <> ""%string
  | Raise e =>
      (exists d, e = HTTPError 502 ("OpenAI chat completion failed: " ++ d)) \/
      (exists code detail, e = HTTPError code detail /\
         is_empty_openai_http_error e = false /\ r = Raise e)
  end.
Proof.
  intro Hr. unfold handle_dispatch_error. destruct r as [t | e].
  - exact (Hr t eq_refl).
  - destruct e as [code detail | | msg | | | | msg]; eauto.
    destruct (is_empty_openai_http_error (HTTPError code detail)) eqn:He.
    + exact fallback_nonempty.
    + right. eauto.
Qed.

(** The text of a successful dispatch, before the error handlers, is never empty. *)
Lemma dispatch_branch_nonempty MINT MAXT (float : Type) rc cc messages model
    (temperature : float) max_tokens (t : string) :
  fst (if should_use_responses_api model
       then call_responses MINT MAXT rc messages model max_tokens
       else call_chat float cc messages model temperature max_tokens) = Ok t ->
  t <> ""%string.
Proof.
  destruct (should_use_responses_api model).
  - unfold call_responses.
    destruct (rc 0 model (format_messages_for_responses messages) _) as [resp | e];
      [| cbn; discriminate].
    match goal with |- context [if ?b then _ else _] => destruct b end.
    + destruct (rc 1 model _ _) as [resp' | e]; cbn [fst];
        [apply finish_responses_nonempty | discriminate].
    + apply finish_responses_nonempty.
  - unfold call_chat.
    destruct (cc model messages temperature max_tokens) as [cs | e]; [| cbn; discriminate].
    cbn [fst]. intro Ht.
    destruct (extract_text_from_chat_choice [] _) as [[content|] | e]; cbn in Ht.
    + exact (nonempty_or_fallback content t Ht).
    + injection Ht as <-. exact fallback_nonempty.
    + discriminate Ht.
Qed.

(** X6: [_call_openai_chat] never returns an empty reply (an empty text
    becomes the fallback message), and every exception it lets escape is
    an [HTTPException]: the 500 "OpenAI SDK is not installed on the
    server." when the SDK is missing, a 500 when the client cannot be
    created, the 502 "OpenAI chat completion failed: ..." wrapping an
    exception of any other kind, or an [HTTPException] raised while
    calling the provider, passed on unchanged (except the 502 empty
    response, which becomes the fallback). *)
Theorem call_openai_chat_outcome :
  forall MINT MAXT (sdk_installed client_init_ok : bool) (float : Type)
         responses_create chat_create messages model (temperature : float) max_tokens,
  match fst (call_openai_chat MINT MAXT sdk_installed client_init_ok float
               responses_create chat_create messages model temperature max_tokens) with
  | Ok t => t <> ""%string
  | Raise e =>
      (sdk_installed = false /\
       e = HTTPError 500 "OpenAI SDK is not installed on the server.") \/
      (sdk_installed = true /\ client_init_ok = false /\ exists d, e = HTTPError 500 d) \/
      (exists d, e = HTTPError 502 ("OpenAI chat completion failed: " ++ d)) \/
      (exists code detail, e = HTTPError code detail /\
         is_empty_openai_http_error e = false /\
         sdk_installed = true /\ client_init_ok = true /\
         fst (if should_use_responses_api model
              then call_responses MINT MAXT responses_create messages model max_tokens
              else call_chat float chat_create messages model temperature max_tokens)
         = Raise e)
  end.
Proof.
  intros MINT MAXT inst init float rc cc messages model temperature max_tokens.
  unfold call_openai_chat.
  destruct inst; cbn [negb]; [| cbn; left; auto].
  destruct init; cbn [negb]; [| cbn; right; left; eauto].
  assert (Hne := dispatch_branch_nonempty MINT MAXT float rc cc messages model
                   temperature max_tokens).
  destruct (if should_use_responses_api model
            then call_responses MINT MAXT rc messages model max_tokens
            else call_chat float cc messages model temperature max_tokens) as [r tr].
  cbn [fst] in Hne |- *.
  assert (Hs := handle_dispatch_error_shape r (fun t Ht => Hne t Ht)).
  destruct (handle_dispatch_error r) as [t | e]; [exact Hs |].
  destruct Hs as [H502 | [code [detail [He [Hemp Hr]]]]]; [right; right; left; exact H502 |].
  right. right. right. exists code, detail. auto.
Qed.

(** X7: a failed [update_chat_room_for_user] writes nothing (the single
    [db.commit()] is its last step), and its error is one of four: the
    404 of a missing or foreign room, the 400 of a blank title, the 400
    of a trash value other than ["in"] and ["out"], or the constraint
    violation of the commit. *)
Theorem update_chat_room_for_user_failure :
  forall (room user : nat) (ci : chat_update) (s s' : db) (e : exn),
  update_chat_room_for_user room user ci s = (Raise e, s') ->
  s' = s /\
  (e = HTTPError 404 "Chat room not found or permission denied"
   \/ e = HTTPError 400 "Title must not be empty"
   \/ e = HTTPError 400 "Invalid trash_can value"
   \/ e = IntegrityError).
Proof.
  intros room user ci s s' e H.
  unfold update_chat_room_for_user, mbind, get_db in H.
  destruct (find_first _ (db_chats s)) as [c|];
    [| unfold raise in H; inversion H; subst; auto 6].
  destruct (cu_title ci) as [t|]; [destruct (String.eqb (strip t) "")|];
    destruct (cu_trash_can ci) as [v|]; try destruct (trash_of_value v) as [tr|];
    unfold raise, ret in H; cbn [fst snd] in H; try discriminate H;
    try (inversion H; subst; auto 6; fail);
    unfold commit_chat, mbind, get_db, put_db, ret, raise in H;
    match type of H with context [conflicts ?cs ?x] => destruct (conflicts cs x) end;
    inversion H; subst; auto 6.
Qed.

(** X8: a successful [update_chat_room_for_user] returns the caller's
    room (the first row with that id and user) with only the requested
    fields changed: the title is the stripped, non-blank new title, the
    trash state the requested one; id, owner, stock code and
    [lastchat_at] are kept.  When neither field is given nothing is
    written; otherwise exactly that row is replaced in one commit. *)
Theorem update_chat_room_for_user_ok :
  forall (room user : nat) (ci : chat_update) (s s' : db) (c' : chat),
  update_chat_room_for_user room user ci s = (Ok c', s') ->
  exists c,
    find_first (fun c0 => Nat.eqb (chat_id c0) room && Nat.eqb (c_user_id c0) user)
               (db_chats s) = Some c /\
    (forall t, cu_title ci = Some t -> strip t <> ""%string) /\
    c' = mk_chat (chat_id c) (c_user_id c)
           (match cu_title ci with Some t => Some (strip t) | None => title c end)
           (stock_code c)
           (match cu_trash_can ci with
            | Some v => match trash_of_value v with Some tr => tr | None => trash_can c end
            | None => trash_can c
            end)
           (lastchat_at c) /\
    match cu_title ci, cu_trash_can ci with
    | None, None => s' = s
    | _, _ => s' = mk_db (replace_chat c' (db_chats s)) (db_messages s)
                         (S (db_clock s)) (db_next_chat s) (db_next_msg s)
    end.
Proof.
  intros room user ci s s' c' H.
  unfold update_chat_room_for_user, mbind, get_db in H.
  destruct (find_first _ (db_chats s)) as [c|] eqn:Hf;
    [| unfold raise in H; discriminate H].
  exists c. split; [reflexivity |].
  destruct (cu_title ci) as [t|]; [destruct (String.eqb (strip t) "") eqn:Es|];
    destruct (cu_trash_can ci) as [v|]; try destruct (trash_of_value v) as [tr|];
    unfold raise, ret in H; cbn [fst snd] in H; try discriminate H;
    try (injection H as <- <-; split; [intros t' Ht'; discriminate Ht' | destruct c; auto]; fail);
    unfold commit_chat, mbind, get_db, put_db, ret, raise in H;
    match type of H with context [conflicts ?cs ?x] => destruct (conflicts cs x) end;
    try discriminate H; injection H as <- <-;
    (split; [intros t' Ht'; try discriminate Ht'; injection Ht' as <-;
             apply String.eqb_neq; assumption |]);
    split; reflexivity.
Qed.

Lemma update_chat_room_for_user_failure_witness :
  update_chat_room_for_user 1 7 (mk_chat_update (Some "new") (Some "bogus")) dbU
  = (Raise (HTTPError 400 "Invalid trash_can value"), dbU) /\
  dbU = dbU /\
  (HTTPError 400 "Invalid trash_can value" = HTTPError 404 "Chat room not found or permission denied"
   \/ HTTPError 400 "Invalid trash_can value" = HTTPError 400 "Title must not be empty"
   \/ HTTPError 400 "Invalid trash_can value" = HTTPError 400 "Invalid trash_can value"
   \/ HTTPError 400 "Invalid trash_can value" = IntegrityError).
Proof.
  assert (H : update_chat_room_for_user 1 7 (mk_chat_update (Some "new") (Some "bogus")) dbU
              = (Raise (HTTPError 400 "Invalid trash_can value"), dbU))
    by (vm_compute; reflexivity).
  split; [exact H |].
  exact (update_chat_room_for_user_failure 1 7 _ dbU dbU _ H).
Defined.

Lemma update_chat_room_for_user_ok_witness :
  update_chat_room_for_user 1 7 (mk_chat_update (Some "  b ") (Some "in")) dbU
  = (Ok (mk_chat 1 7 (Some "b") (Some "X") TrashIn 0),
     mk_db [mk_chat 1 7 (Some "b") (Some "X") TrashIn 0] [] 1 2 1) /\
  exists c,
    find_first (fun c0 => Nat.eqb (chat_id c0) 1 && Nat.eqb (c_user_id c0) 7)
               (db_chats dbU) = Some c /\
    (forall t, Some "  b "%string = Some t -> strip t <> ""%string) /\
    mk_chat 1 7 (Some "b") (Some "X") TrashIn 0
    = mk_chat (chat_id c) (c_user_id c) (Some (strip "  b ")) (stock_code c) TrashIn
              (lastchat_at c) /\
    mk_db [mk_chat 1 7 (Some "b") (Some "X") TrashIn 0] [] 1 2 1
    = mk_db (replace_chat (mk_chat 1 7 (Some "b") (Some "X") TrashIn 0) (db_chats dbU))
            (db_messages dbU) (S (db_clock dbU)) (db_next_chat dbU) (db_next_msg dbU).
Proof.
  assert (H : update_chat_room_for_user 1 7 (mk_chat_update (Some "  b ") (Some "in")) dbU
              = (Ok (mk_chat 1 7 (Some "b") (Some "X") TrashIn 0),
                 mk_db [mk_chat 1 7 (Some "b") (Some "X") TrashIn 0] [] 1 2 1))
    by (vm_compute; reflexivity).
  split; [exact H |].
  exact (update_chat_room_for_user_ok 1 7 _ dbU _ _ H).
Defined.

Lemma extract_latest_user_text_snoc (l : list message) (x : message) :
  extract_latest_user_text (app l [x])
  = match m_role x with
    | RoleUser => Some (m_content x)
    | RoleAssistant => extract_latest_user_text l
    end.
Proof.
  unfold extract_latest_user_text. rewrite rev_app_distr. cbn [rev app find_first].
  destruct (m_role x); reflexivity.
Qed.

Lemma app_snoc_cases {A : Type} (l pre post : list A) (x m : A) :
  app l [x] = app pre (m :: post) ->
  (post = [] /\ pre = l /\ m = x) \/
  (exists post', post = app post' [x] /\ l = app pre (m :: post')).
Proof.
  intro H. destruct post as [| y post] using rev_ind.
  - left. apply app_inj_tail in H. destruct H as [-> ->]. auto.
  - right. clear IHpost. exists post.
    rewrite app_comm_cons, app_assoc in H. apply app_inj_tail in H.
    destruct H as [-> ->]. auto.
Qed.

(** X9: [_extract_latest_user_text] returns the content of the last
    message of the history whose role is [user] (every message after it
    is the assistant's), and [None] exactly when the history holds no
    user message. *)
Theorem extract_latest_user_text_spec :
  forall (history : list message),
  (forall t, extract_latest_user_text history = Some t <->
     exists pre m post, history = app pre (m :: post) /\ m_role m = RoleUser /\
       m_content m = t /\ Forall (fun m' => m_role m' = RoleAssistant) post) /\
  (extract_latest_user_text history = None <->
     Forall (fun m' => m_role m' = RoleAssistant) history).
Proof.
  induction history as [| x l IH] using rev_ind.
  - split.
    + intro t. split; [discriminate |].
      intros [pre [m [post [H _]]]]. destruct pre; discriminate H.
    + split; auto.
  - destruct IH as [IHs IHn].
    rewrite extract_latest_user_text_snoc. split.
    + intro t. destruct (m_role x) eqn:Hx; split.
      * intro H. injection H as <-. exists l, x, []. auto.
      * intros [pre [m [post [H [Hm [Hc Hp]]]]]].
        destruct (app_snoc_cases l pre post x m H) as [[-> [-> ->]] | [post' [-> _]]].
        -- rewrite Hc. reflexivity.
        -- apply Forall_app in Hp. destruct Hp as [_ Hp]. inversion Hp as [| ? ? Hy _].
           rewrite Hx in Hy. discriminate Hy.
      * intro H. apply IHs in H. destruct H as [pre [m [post [-> [Hm [Hc Hp]]]]]].
        exists pre, m, (app post [x]). repeat split; auto.
        -- rewrite <- app_assoc. reflexivity.
        -- apply Forall_app. auto.
      * intros [pre [m [post [H [Hm [Hc Hp]]]]]].
        destruct (app_snoc_cases l pre post x m H) as [[-> [-> ->]] | [post' [-> Hl]]].
        -- rewrite Hm in Hx. discriminate Hx.
        -- apply IHs. apply Forall_app in Hp. exists pre, m, post'. tauto.
    + destruct (m_role x) eqn:Hx; split.
      * discriminate.
      * intro H. apply Forall_app in H. destruct H as [_ H]. inversion H as [| ? ? Hy _].
        rewrite Hx in Hy. discriminate Hy.
      * intro H. apply Forall_app. split; [apply IHn; exact H | constructor; auto].
      * intro H. apply Forall_app in H. apply IHn. tauto.
Qed.




Lemma commit_message_keeps_owner (c : chat) (mk : nat -> nat -> message) (s s' : db)
    (m : message) (room user : nat) :
  commit_message c mk s = (Ok m, s') ->
  In c (db_chats s) -> chat_id c = room -> c_user_id c = user ->
  exists c0, ensure_room_ownership room user s' = (Ok c0, s').
Proof.
  intros H Hin Hid Hu.
  destruct (commit_message_ok _ _ _ _ _ H) as [_ Hs'].
  set (c' := mk_chat (chat_id c) (c_user_id c) (title c) (stock_code c) (trash_can c)
                     (db_clock s)) in Hs'.
  assert (Hc' : In c' (db_chats s')).
  { rewrite Hs'. cbn [db_chats]. apply (replace_chat_in c' c); [exact Hin | reflexivity]. }
  unfold ensure_room_ownership, mbind, get_db, ret, raise.
  destruct (find_first _ (db_chats s')) as [c0 |] eqn:Hf; [exists c0; reflexivity |].
  exfalso. apply (proj1 (find_first_none _ _) Hf c') in Hc'.
  cbn [c' chat_id c_user_id] in Hc'. rewrite Hid, Hu, !Nat.eqb_refl in Hc'. discriminate Hc'.
Qed.

Lemma prefix_app (r x : string) : String.prefix r (r ++ x) = true.
Proof.
  induction r as [| a r IH]; [destruct x; reflexivity |]. cbn.
  destruct (ascii_dec a a) as [_ | n]; [exact IH | contradiction n; reflexivity].
Qed.

Lemma prefix_refl (r : string) : String.prefix r r = true.
Proof.
  induction r as [| a r IH]; [reflexivity |]. cbn.
  destruct (ascii_dec a a) as [_ | n]; [exact IH | contradiction n; reflexivity].
Qed.

(** Once the room is the caller's, [generate_and_save_assistant_reply]
    is one provider call on the history followed by one message commit
    whose text extends the reply. *)
Lemma generate_reply_unfold (rag : bool) (search : string -> result (list news_doc))
    (limit : nat) (call_openai : list chat_msg -> result string) (room user : nat)
    (sp : option string) (s : db) (c : chat) :
  ensure_room_ownership room user s = (Ok c, s) ->
  exists (msgs : list chat_msg) (text : string -> string),
    (forall r, String.prefix r (text r) = true) /\
    (rag = false -> forall r, text r = r) /\
    generate_and_save_assistant_reply rag search limit call_openai room user sp s
    = match call_openai msgs with
      | Ok r => commit_message c (fun id now =>
                  mk_message id room user RoleAssistant (text r) now) s
      | Raise e => (Raise e, s)
      end.
Proof.
  intro He.
  unfold generate_and_save_assistant_reply, mbind at 1. rewrite He.
  unfold load_chat_history, mbind, get_db, ret, lift.
  destruct (build_rag_news_summary rag search limit (stock_code c) _) as [rs nd] eqn:Hb.
  eexists.
  exists (fun r => match nd with
                   | [] => r
                   | _ => (r ++ newline ++ newline ++ "[참고 뉴스]" ++ newline
                           ++ footer_lines 1 nd)%string
                   end).
  split; [| split].
  - intro r. destruct nd; [apply prefix_refl | apply prefix_app].
  - intros Hrag r. subst rag.
    assert (Hnd : nd = []).
    { unfold build_rag_news_summary in Hb. cbn [negb orb] in Hb. injection Hb as _ <-.
      reflexivity. }
    rewrite Hnd. reflexivity.
  - reflexivity.
Qed.

Lemma save_user_message_keeps_owner (room user : nat) (content : string) (s s1 : db)
    (m : message) :
  save_user_message room user content s = (Ok m, s1) ->
  exists c1, ensure_room_ownership room user s1 = (Ok c1, s1).
Proof.
  unfold save_user_message, mbind at 1. intros H.
  destruct (ensure_room_ownership room user s) as [[c | e] s0] eqn:He; [|discriminate H].
  destruct (ensure_room_ownership_ok _ _ _ _ _ He) as [-> [Hin [Hid Hu]]].
  exact (commit_message_keeps_owner _ _ _ _ _ room user H Hin Hid Hu).
Qed.

(** X12: when the provider fails, [create_message_and_reply] raises the
    provider's error after the user's message was committed: the
    database is the one [save_user_message] left, with the user message
    appended and no assistant message. *)
Theorem create_message_and_reply_provider_error :
  forall rag search limit (call_openai : list chat_msg -> result string)
         room user content sp (s s1 : db) (m : message) (e : exn),
  (forall msgs, call_openai msgs = Raise e) ->
  save_user_message room user content s = (Ok m, s1) ->
  create_message_and_reply rag search limit call_openai room user content sp s = (Raise e, s1) /\
  db_messages s1 = app (db_messages s) [m].
Proof.
  intros rag search limit call_openai room user content sp s s1 m e Hco Hs.
  destruct (save_user_message_keeps_owner _ _ _ _ _ _ Hs) as [c1 He1].
  destruct (generate_reply_unfold rag search limit call_openai room user sp s1 c1 He1)
    as [msgs [text [_ [_ Hg]]]].
  split.
  - unfold create_message_and_reply, mbind at 1. rewrite Hs.
    unfold mbind. rewrite Hg, Hco. reflexivity.
  - destruct (save_user_message_ok _ _ _ _ _ _ Hs) as [c [_ [_ [_ [_ ->]]]]]. reflexivity.
Qed.

(** X13: a successful [create_message_and_reply] appends exactly two rows
    to the messages table, the user's message (the next id, the given
    content) and then the assistant's (the id after it, in the same
    room).  When the provider answers [reply], the assistant's text
    starts with [reply] (a news footer may follow it), and is exactly
    [reply] when news retrieval is disabled. *)
Theorem create_message_and_reply_ok :
  forall rag search limit (call_openai : list chat_msg -> result string)
         room user content sp (s s' : db) (t : list ret_item),
  create_message_and_reply rag search limit call_openai room user content sp s = (Ok t, s') ->
  exists u a,
    t = [RMsg u; RMsg a] /\
    db_messages s' = app (db_messages s) [u; a] /\
    u = mk_message (db_next_msg s) room user RoleUser content (db_clock s) /\
    messages_id a = S (db_next_msg s) /\ m_chat_id a = room /\ m_user_id a = user /\
    m_role a = RoleAssistant /\
    (forall reply, (forall msgs, call_openai msgs = Ok reply) ->
       String.prefix reply (m_content a) = true /\ (rag = false -> m_content a = reply)).
Proof.
  intros rag search limit call_openai room user content sp s s' t H.
  unfold create_message_and_reply, mbind at 1 in H.
  destruct (save_user_message room user content s) as [[u | e] s1] eqn:Hs; [|discriminate H].
  destruct (save_user_message_keeps_owner _ _ _ _ _ _ Hs) as [c1 He1].
  destruct (generate_reply_unfold rag search limit call_openai room user sp s1 c1 He1)
    as [msgs [text [Hpre [Hid Hg]]]].
  destruct (save_user_message_ok _ _ _ _ _ _ Hs) as [c [_ [_ [_ [Hu Hs1]]]]].
  unfold mbind in H. rewrite Hg in H.
  destruct (call_openai msgs) as [r | e] eqn:Hco; [| discriminate H].
  destruct (commit_message c1 _ s1) as [[a | e] s2] eqn:Hc; [| discriminate H].
  unfold ret in H. injection H as <- <-.
  destruct (commit_message_ok _ _ _ _ _ Hc) as [Ha Hs2].
  exists u, a.
  rewrite Hs2, Ha, Hs1. cbn. rewrite <- app_assoc. rewrite Hu.
  do 7 (split; [reflexivity |]).
  intros reply Hrep. specialize (Hrep msgs). rewrite Hco in Hrep. injection Hrep as <-.
  split; [apply Hpre | intro Hrag; apply (Hid Hrag)].
Qed.

Lemma create_message_and_reply_provider_error_witness :
  save_user_message 1 7 "hi" c1_db0
  = (Ok c1_user_msg, snd (save_user_message 1 7 "hi" c1_db0)) /\
  create_message_and_reply false (fun _ => Ok []) 5 provider_down 1 7 "hi" None c1_db0
  = (Raise (HTTPError 502 "OpenAI chat completion failed: timeout"),
     snd (save_user_message 1 7 "hi" c1_db0)) /\
  db_messages (snd (save_user_message 1 7 "hi" c1_db0)) = app (db_messages c1_db0) [c1_user_msg].
Proof.
  assert (Hs : save_user_message 1 7 "hi" c1_db0
               = (Ok c1_user_msg, snd (save_user_message 1 7 "hi" c1_db0)))
    by (vm_compute; reflexivity).
  split; [exact Hs |].
  exact (create_message_and_reply_provider_error false (fun _ => Ok []) 5 provider_down
           1 7 "hi" None c1_db0 _ c1_user_msg _ (fun _ => eq_refl) Hs).
Defined.

Lemma create_message_and_reply_ok_witness :
  create_message_and_reply false (fun _ => Ok []) 5 (fun _ => Ok "answer") 1 7 "hi" None c1_db0
  = (Ok [RMsg c1_user_msg; RMsg c1_assistant_msg], c1_db1) /\
  exists u a,
    [RMsg c1_user_msg; RMsg c1_assistant_msg] = [RMsg u; RMsg a] /\
    db_messages c1_db1 = app (db_messages c1_db0) [u; a] /\
    u = mk_message (db_next_msg c1_db0) 1 7 RoleUser "hi" (db_clock c1_db0) /\
    messages_id a = S (db_next_msg c1_db0) /\ m_chat_id a = 1 /\ m_user_id a = 7 /\
    m_role a = RoleAssistant /\
    (forall reply, (forall msgs : list chat_msg, Ok "answer"%string = Ok reply) ->
       String.prefix reply (m_content a) = true /\ (false = false -> m_content a = reply)).
Proof.
  assert (H : create_message_and_reply false (fun _ => Ok []) 5 (fun _ => Ok "answer")
                1 7 "hi" None c1_db0
              = (Ok [RMsg c1_user_msg; RMsg c1_assistant_msg], c1_db1))
    by (vm_compute; reflexivity).
  split; [exact H |].
  exact (create_message_and_reply_ok false (fun _ => Ok []) 5 (fun _ => Ok "answer")
           1 7 "hi" None c1_db0 c1_db1 _ H).
Defined.

Lemma order_by_created_aux_in_sorted (l acc : list message) :
  StronglySorted created_le acc ->
  StronglySorted created_le (fold_left (fun acc m => insert_by_created m acc) l acc) /\
  (forall x, In x (fold_left (fun acc m => insert_by_created m acc) l acc)
             <-> In x acc \/ In x l).
Proof.
  revert acc. induction l as [|m l IH]; intros acc Hs.
  - split; [exact Hs | intro x; cbn; tauto].
  - cbn [fold_left]. destruct (IH _ (insert_by_created_sorted m acc Hs)) as [Hs' Hin].
    split; [exact Hs' |]. intro x. rewrite Hin, insert_by_created_in. cbn [In]. tauto.
Qed.

(** X14: [fetch_chat_messages] lists the room's messages in creation-time
    order: the result is sorted by [created_at], and a message is in it
    exactly when it is a message of that room with an id above
    [last_message_id] (when one is given). *)
Theorem fetch_chat_messages_sorted_members :
  forall (room user : nat) (last : option nat) (s s' : db) (l : list message),
  fetch_chat_messages room user last s = (Ok l, s') ->
  StronglySorted created_le l /\
  (forall m, In m l <-> In m (db_messages s) /\ m_chat_id m = room /\
                        match last with Some k => (k < messages_id m)%nat | None => True end).
Proof.
  intros room user last s s' l H.
  unfold fetch_chat_messages, mbind at 1 in H.
  destruct (ensure_room_ownership room user s) as [[c | e] s0] eqn:He; [| discriminate H].
  destruct (ensure_room_ownership_ok _ _ _ _ _ He) as [-> _].
  unfold mbind, get_db, ret in H. injection H as <- _.
  unfold order_by_created.
  match goal with |- context [fold_left _ ?q []] =>
    destruct (order_by_created_aux_in_sorted q [] (SSorted_nil _)) as [Hs Hin] end.
  split; [exact Hs |]. intro m. rewrite Hin.
  destruct last as [k |]; rewrite ?filter_In, ?Nat.eqb_eq, ?Nat.ltb_lt; cbn [In]; tauto.
Qed.

Lemma fetch_chat_messages_sorted_members_witness :
  fetch_chat_messages 1 7 None c1_db1 = (Ok [c1_user_msg; c1_assistant_msg], c1_db1) /\
  StronglySorted created_le [c1_user_msg; c1_assistant_msg] /\
  (forall m, In m [c1_user_msg; c1_assistant_msg] <->
             In m (db_messages c1_db1) /\ m_chat_id m = 1 /\ True).
Proof.
  assert (H : fetch_chat_messages 1 7 None c1_db1 = (Ok [c1_user_msg; c1_assistant_msg], c1_db1))
    by (vm_compute; reflexivity).
  split; [exact H |].
  exact (fetch_chat_messages_sorted_members 1 7 None c1_db1 c1_db1 _ H).
Defined.

(** X15: [create_chat_room_for_user] without a stock code never looks for
    an existing room and never fails: it always adds a new row with the
    next room id, owned by the caller, with the given title, no stock
    code and the column's default trash state, and leaves the other rows
    and the messages as they were. *)
Theorem create_chat_room_for_user_no_stock :
  forall (trash_default : trash) (user : nat) (ci : chat_create) (s : db),
  cc_stock_code ci = None ->
  exists c s',
    create_chat_room_for_user trash_default user ci s = (Ok c, s') /\
    chat_id c = db_next_chat s /\ c_user_id c = user /\ title c = cc_title ci /\
    stock_code c = None /\ trash_can c = trash_default /\
    db_chats s' = app (db_chats s) [c] /\ db_messages s' = db_messages s /\
    db_next_chat s' = S (db_next_chat s).
Proof.
  intros trash_default user ci s Hnone.
  unfold create_chat_room_for_user, mbind at 1, get_db. rewrite Hnone. cbn [opt_truthy].
  unfold commit_new_chat, mbind, get_db, put_db, ret, raise.
  match goal with |- context [if conflicts ?cs ?x then _ else _] =>
    replace (conflicts cs x) with false end.
  - eexists _, _. split; [reflexivity |]. cbn. repeat split; reflexivity.
  - symmetry. unfold conflicts. cbn [stock_code].
    destruct (existsb _ (db_chats s)) eqn:E; [| reflexivity].
    apply existsb_exists in E. destruct E as [y [_ Hy]].
    rewrite andb_false_r in Hy. discriminate Hy.
Qed.

Lemma create_chat_room_for_user_no_stock_witness :
  create_chat_room_for_user TrashOut 7 (mk_chat_create (Some "t") None) c1_db0
  = (Ok (mk_chat 2 7 (Some "t") None TrashOut 0),
     mk_db [mk_chat 1 7 (Some "t") (Some "AAPL") TrashOut 0; mk_chat 2 7 (Some "t") None TrashOut 0]
           [] 1 3 1) /\
  exists c s',
    create_chat_room_for_user TrashOut 7 (mk_chat_create (Some "t") None) c1_db0 = (Ok c, s') /\
    chat_id c = db_next_chat c1_db0 /\ c_user_id c = 7 /\ title c = Some "t"%string /\
    stock_code c = None /\ trash_can c = TrashOut /\
    db_chats s' = app (db_chats c1_db0) [c] /\ db_messages s' = db_messages c1_db0 /\
    db_next_chat s' = S (db_next_chat c1_db0).
Proof.
  split; [vm_compute; reflexivity |].
  exact (create_chat_room_for_user_no_stock TrashOut 7 (mk_chat_create (Some "t") None) c1_db0
           eq_refl).
Defined.

(** X16: after [upsert_chat_by_stock] succeeds, the room it returned is in
    the caller's room list ([list_user_chat_rooms]), which holds only
    rooms of the caller. *)
Theorem upsert_then_list_user_chat_rooms :
  forall (user : nat) (code : string) (t : option string) (s s1 : db) (c : chat) (b : bool),
  upsert_chat_by_stock user code t s = (Ok (c, b), s1) ->
  exists l, list_user_chat_rooms user s1 = (Ok l, s1) /\ In c l /\
            Forall (fun c' => c_user_id c' = user) l.
Proof.
  intros user code t s s1 c b H.
  destruct (upsert_ok_stock _ _ _ _ _ _ _ H) as [_ [Hu [_ Hin]]].
  eexists. split; [reflexivity |]. split.
  - apply filter_In. split; [exact Hin | apply Nat.eqb_eq; exact Hu].
  - apply Forall_forall. intros x Hx. apply filter_In in Hx. apply Nat.eqb_eq. tauto.
Qed.

Lemma upsert_then_list_user_chat_rooms_witness :
  upsert_chat_by_stock 7 "X" (Some "t") db_empty
  = (Ok (mk_chat 1 7 (Some "t") (Some "X") TrashOut 0, false),
     mk_db [mk_chat 1 7 (Some "t") (Some "X") TrashOut 0] [] 1 2 1) /\
  exists l, list_user_chat_rooms 7 (mk_db [mk_chat 1 7 (Some "t") (Some "X") TrashOut 0] [] 1 2 1)
            = (Ok l, mk_db [mk_chat 1 7 (Some "t") (Some "X") TrashOut 0] [] 1 2 1) /\
            In (mk_chat 1 7 (Some "t") (Some "X") TrashOut 0) l /\
            Forall (fun c' => c_user_id c' = 7) l.
Proof.
  assert (H : upsert_chat_by_stock 7 "X" (Some "t") db_empty
              = (Ok (mk_chat 1 7 (Some "t") (Some "X") TrashOut 0, false),
                 mk_db [mk_chat 1 7 (Some "t") (Some "X") TrashOut 0] [] 1 2 1))
    by (vm_compute; reflexivity).
  split; [exact H |].
  exact (upsert_then_list_user_chat_rooms 7 "X" (Some "t") db_empty _ _ false H).
Defined.
